(** * Customer-support chatbot: the turn-processing pipeline

    A shallow embedding of [app/core/chat_service.py], [app/core/memory.py],
    [app/core/tools.py], [app/llm/chain.py], [app/llm/prompts.py] and the
    tables of [app/db/models.py], followed by the properties of the
    pipeline.

    Modelling conventions.
    - A Python [str] is a [string]; the text helpers agree with Python on
      ASCII text (the only text the sources themselves contain).  Bytes
      above 127 are treated as caseless symbols that are neither white
      space nor word characters.
    - A Python [int] is a [Z].
    - The database is the [World]: the four tables in storage order.
      Every statement sent to it, every clock read, every identifier drawn
      and every call of the text-generation backend advances a counter
      [ticks]; what the outside answers at a given tick is fixed by the
      [Env], so a theorem quantified over [Env] covers every schedule of
      database faults, every clock and every backend behaviour.
    - Code that may raise lives in the monad [M]; [try_except] is Python's
      [try: ... except Exception:].  Logging is not modelled. *)

From Stdlib Require Import List String Ascii ZArith Bool Arith Lia.
From Stdlib Require Import Sorted DecimalString.
Import ListNotations.

Open Scope string_scope.
Open Scope list_scope.

(* ================================================================== *)
(** * Python text primitives *)
(* ================================================================== *)

Module PyStr.

Definition nl : string := String (ascii_of_nat 10) "".
Definition dq : string := String (ascii_of_nat 34) "".

Definition in_range (lo hi : nat) (c : ascii) : bool :=
  (lo <=? nat_of_ascii c)%nat && (nat_of_ascii c <=? hi)%nat.

Definition is_upper (c : ascii) : bool := in_range 65 90 c.
Definition is_lower (c : ascii) : bool := in_range 97 122 c.
Definition is_digit (c : ascii) : bool := in_range 48 57 c.

(** [str.isspace] on one character: TAB, LF, VT, FF, CR, FS, GS, RS, US
    and the blank.  These are the ASCII white space characters; Python
    knows further ones outside ASCII (NEL, the no-break space, ...). *)
Definition isspace (c : ascii) : bool :=
  in_range 9 13 c || in_range 28 32 c.

Definition lower_char (c : ascii) : ascii :=
  if is_upper c then ascii_of_nat (nat_of_ascii c + 32) else c.

Definition upper_char (c : ascii) : ascii :=
  if is_lower c then ascii_of_nat (nat_of_ascii c - 32) else c.

(** [s.lower()], on ASCII text: the letters A-Z are folded, everything
    else is kept.  (Python also folds letters outside ASCII.) *)
Fixpoint lower (s : string) : string :=
  match s with
  | EmptyString => EmptyString
  | String c s' => String (lower_char c) (lower s')
  end.

(** [s.startswith(p)] *)
Fixpoint startswith (p s : string) : bool :=
  match p with
  | EmptyString => true
  | String a p' =>
      match s with
      | EmptyString => false
      | String b s' => Ascii.eqb a b && startswith p' s'
      end
  end.

(** [needle in hay] *)
Fixpoint contains (needle hay : string) : bool :=
  startswith needle hay ||
  match hay with
  | EmptyString => false
  | String _ hay' => contains needle hay'
  end.

Fixpoint rev_str (acc s : string) : string :=
  match s with
  | EmptyString => acc
  | String c s' => rev_str (String c acc) s'
  end.

Definition reverse (s : string) : string := rev_str "" s.

(** [s.endswith(p)] *)
Definition endswith (p s : string) : bool :=
  startswith (reverse p) (reverse s).

(** [s.lstrip(chars)], [s.rstrip(chars)], [s.strip(chars)] with the set
    of characters given as a predicate. *)
Fixpoint lstrip_by (p : ascii -> bool) (s : string) : string :=
  match s with
  | EmptyString => EmptyString
  | String c s' => if p c then lstrip_by p s' else s
  end.

Definition rstrip_by (p : ascii -> bool) (s : string) : string :=
  reverse (lstrip_by p (reverse s)).

Definition strip_by (p : ascii -> bool) (s : string) : string :=
  rstrip_by p (lstrip_by p s).

(** [s.strip()] *)
Definition strip (s : string) : string := strip_by isspace s.

Fixpoint mem_char (c : ascii) (chars : string) : bool :=
  match chars with
  | EmptyString => false
  | String d chars' => Ascii.eqb c d || mem_char c chars'
  end.

(** [s.strip(chars)] *)
Definition strip_chars (chars s : string) : string :=
  strip_by (fun c => mem_char c chars) s.

(** [s.split(sep)] for a non-empty [sep]: [skip] counts the characters of
    a separator occurrence still to be passed over, [cur] is the piece
    being read, reversed. *)
Fixpoint split_aux (sep : string) (skip : nat) (cur s : string) : list string :=
  match s with
  | EmptyString => [reverse cur]
  | String c s' =>
      match skip with
      | S k => split_aux sep k cur s'
      | O =>
          if startswith sep s
          then reverse cur :: split_aux sep (String.length sep - 1) "" s'
          else split_aux sep 0 (String c cur) s'
      end
  end.

Definition split (sep s : string) : list string := split_aux sep 0 "" s.

(** [s.split()]: the maximal runs of characters that are not white
    space. *)
Fixpoint split_ws_aux (cur s : string) : list string :=
  match s with
  | EmptyString =>
      match cur with EmptyString => [] | _ => [reverse cur] end
  | String c s' =>
      if isspace c
      then match cur with
           | EmptyString => split_ws_aux "" s'
           | _ => reverse cur :: split_ws_aux "" s'
           end
      else split_ws_aux (String c cur) s'
  end.

Definition split_ws (s : string) : list string := split_ws_aux "" s.

(** [sep.join(parts)] *)
Fixpoint join (sep : string) (parts : list string) : string :=
  match parts with
  | [] => ""
  | [p] => p
  | p :: rest => p ++ sep ++ join sep rest
  end.

(** Truthiness of a [str]. *)
Definition truthy (s : string) : bool :=
  match s with EmptyString => false | _ => true end.

(** Truthiness of an [Optional[str]] column. *)
Definition truthy_opt (o : option string) : bool :=
  match o with Some s => truthy s | None => false end.

(** The text after the last line feed, the whole text when there is
    none. *)
Fixpoint last_line_aux (cur s : string) : string :=
  match s with
  | EmptyString => reverse cur
  | String c s' =>
      if Ascii.eqb c (ascii_of_nat 10) then last_line_aux "" s'
      else last_line_aux (String c cur) s'
  end.

Definition last_line (s : string) : string := last_line_aux "" s.

(** [str(n)] for an [int]. *)
Definition str_of_nat (n : nat) : string :=
  NilZero.string_of_uint (Nat.to_uint n).

Definition str_of_Z (z : Z) : string :=
  NilZero.string_of_int (Z.to_int z).

End PyStr.

(* ================================================================== *)
(** * Regular expressions, as far as [chain.py] uses them *)
(* ================================================================== *)

(** A backtracking matcher with Python's priorities: greedy repetition
    tries the longest run first, lazy repetition the shortest, and
    [search] returns the match that starts leftmost.  Repetition is only
    needed over character classes. *)
Module Re.
Import PyStr.

Definition charclass := ascii -> bool.

Inductive regex : Type :=
| Lit (s : string)            (* literal text *)
| Cls (p : charclass)         (* one character of a class *)
| Star (p : charclass)        (* p*  *)
| Plus (p : charclass)        (* p+  *)
| PlusLazy (p : charclass)    (* p+? *)
| WordB                       (* \b *)
| Group (r : regex)           (* ( r ), group 1 *)
| Seq (r1 r2 : regex).

Fixpoint cat (rs : list regex) : regex :=
  match rs with
  | [] => Lit ""
  | [r] => r
  | r :: rs' => Seq r (cat rs')
  end.

(** [re.IGNORECASE]: a character matches when one of its case variants
    does.  The variants are the ASCII ones; on text outside ASCII Python
    has further ones (the long s, the Kelvin sign, the dotted and
    dotless i). *)
Definition ignorecase (p : charclass) : charclass :=
  fun c => p c || p (lower_char c) || p (upper_char c).

(** [\s] and [\w], on ASCII text; Python counts further letters,
    digits and spaces outside ASCII. *)
Definition cls_space : charclass := isspace.
Definition cls_word : charclass :=
  fun c => is_upper c || is_lower c || is_digit c || Ascii.eqb c "_".

(** The matcher's position: the character just passed (for [\b]), the
    text still to read and the text of group 1. *)
Record pos := mkPos { prev : option ascii; rest : string; group1 : option string }.

Definition is_word_opt (o : option ascii) : bool :=
  match o with Some c => cls_word c | None => false end.

Definition next_char (s : string) : option ascii :=
  match s with String c _ => Some c | EmptyString => None end.

Fixpoint take_str (n : nat) (s : string) : string :=
  match n, s with
  | S k, String c s' => String c (take_str k s')
  | _, _ => ""
  end.

Section Matcher.
Variable flags_ignorecase : bool.

Definition char_eq (a b : ascii) : bool :=
  if flags_ignorecase then Ascii.eqb (lower_char a) (lower_char b)
  else Ascii.eqb a b.

Definition in_cls (p : charclass) (c : ascii) : bool :=
  if flags_ignorecase then ignorecase p c else p c.

Fixpoint match_lit {R} (l : string) (pv : option ascii) (s : string)
    (k : option ascii -> string -> option R) : option R :=
  match l with
  | EmptyString => k pv s
  | String a l' =>
      match s with
      | String b s' => if char_eq a b then match_lit l' (Some b) s' k else None
      | EmptyString => None
      end
  end.

(** Greedy [p*]: consume while possible, give back one character at a
    time when the continuation fails. *)
Fixpoint match_star {R} (p : charclass) (pv : option ascii) (s : string)
    (k : option ascii -> string -> option R) : option R :=
  match s with
  | String c s' =>
      if in_cls p c then
        match match_star p (Some c) s' k with
        | Some r => Some r
        | None => k pv s
        end
      else k pv s
  | EmptyString => k pv s
  end.

(** Lazy [p*?]: try the continuation first, consume one more character
    when it fails. *)
Fixpoint match_star_lazy {R} (p : charclass) (pv : option ascii) (s : string)
    (k : option ascii -> string -> option R) : option R :=
  match k pv s with
  | Some r => Some r
  | None =>
      match s with
      | String c s' => if in_cls p c then match_star_lazy p (Some c) s' k else None
      | EmptyString => None
      end
  end.

Definition match_one {R} (p : charclass) (pv : option ascii) (s : string)
    (k : option ascii -> string -> option R) : option R :=
  match s with
  | String c s' => if in_cls p c then k (Some c) s' else None
  | EmptyString => None
  end.

Fixpoint match_re {R} (r : regex) (st : pos) (k : pos -> option R) : option R :=
  let kk g := fun pv s => k (mkPos pv s g) in
  match r with
  | Lit l => match_lit l (prev st) (rest st) (kk (group1 st))
  | Cls p => match_one p (prev st) (rest st) (kk (group1 st))
  | Star p => match_star p (prev st) (rest st) (kk (group1 st))
  | Plus p =>
      match_one p (prev st) (rest st)
        (fun pv s => match_star p pv s (kk (group1 st)))
  | PlusLazy p =>
      match_one p (prev st) (rest st)
        (fun pv s => match_star_lazy p pv s (kk (group1 st)))
  | WordB =>
      if xorb (is_word_opt (prev st)) (is_word_opt (next_char (rest st)))
      then k st else None
  | Group r' =>
      match_re r' st
        (fun st' =>
           let n := (String.length (rest st) - String.length (rest st'))%nat in
           k (mkPos (prev st') (rest st') (Some (take_str n (rest st)))))
  | Seq r1 r2 => match_re r1 st (fun st' => match_re r2 st' k)
  end.

(** [re.search(r, s, flags)] followed by [.group(1)]: [None] when there
    is no match. *)
Fixpoint search_from (r : regex) (pv : option ascii) (s : string) : option string :=
  match match_re r (mkPos pv s None)
          (fun st => Some (match group1 st with Some g => g | None => "" end)) with
  | Some g => Some g
  | None =>
      match s with
      | String c s' => search_from r (Some c) s'
      | EmptyString => None
      end
  end.

Definition search_group1 (r : regex) (s : string) : option string :=
  search_from r None s.

End Matcher.

End Re.

(* ================================================================== *)
(** * [datetime] *)
(* ================================================================== *)

Inductive Month : Type :=
| January | February | March | April | May | June
| July | August | September | October | November | December.

Definition month_number (m : Month) : nat :=
  match m with
  | January => 1 | February => 2 | March => 3 | April => 4
  | May => 5 | June => 6 | July => 7 | August => 8
  | September => 9 | October => 10 | November => 11 | December => 12
  end.

(** [%B] in the C locale. *)
Definition month_name (m : Month) : string :=
  match m with
  | January => "January" | February => "February" | March => "March"
  | April => "April" | May => "May" | June => "June" | July => "July"
  | August => "August" | September => "September" | October => "October"
  | November => "November" | December => "December"
  end.

Record datetime : Type := mkDatetime {
  year : nat; month : Month; day : nat;
  hour : nat; minute : nat; second : nat; microsecond : nat
}.

(** [%d], [%H], [%M]: two digits, zero padded. *)
Definition pad2 (n : nat) : string :=
  if (n <? 10)%nat then "0" ++ PyStr.str_of_nat n else PyStr.str_of_nat n.

(** [d.strftime("%d %B %Y")], month names of the C locale, the year
    printed without padding. *)
Definition strftime_date (d : datetime) : string :=
  pad2 (day d) ++ " " ++ month_name (month d) ++ " " ++ PyStr.str_of_nat (year d).

(** [d.strftime("%d %B %Y pukul %H:%M")] *)
Definition strftime_date_time (d : datetime) : string :=
  strftime_date d ++ " pukul " ++ pad2 (hour d) ++ ":" ++ pad2 (minute d).

(** The fields in the order in which two [datetime] values compare. *)
Definition datetime_key (d : datetime) : list Z :=
  map Z.of_nat
    [year d; month_number (month d); day d; hour d; minute d; second d;
     microsecond d].

(** Lexicographic comparison of two keys. *)
Fixpoint lex_compare (a b : list Z) : comparison :=
  match a, b with
  | [], [] => Eq
  | [], _ :: _ => Lt
  | _ :: _, [] => Gt
  | x :: a', y :: b' =>
      match (x ?= y)%Z with
      | Eq => lex_compare a' b'
      | c => c
      end
  end.

(* ================================================================== *)
(** * The tables of [app/db/models.py] *)
(* ================================================================== *)

Record Message : Type := mkMessage {
  Message_id : string;
  Message_session_id : string;
  Message_role : string;
  Message_content : string;
  Message_turn_index : Z;
  Message_created_at : datetime
}.

Record Order : Type := mkOrder {
  Order_id : string;
  Order_user_id : string;
  Order_status : string;
  Order_last_update_at : datetime;
  Order_eta_date : option datetime;
  Order_carrier : option string;
  Order_tracking_number : option string
}.

(** [price] is a [Numeric(12, 2)]: the model keeps it in hundredths. *)
Record Product : Type := mkProduct {
  Product_id : string;
  Product_name : string;
  Product_features : option string;
  Product_price : option Z;
  Product_stock : option Z
}.

Record Policy : Type := mkPolicy {
  Policy_id : string;
  Policy_type : string;
  Policy_content_markdown : string;
  Policy_created_at : datetime;
  Policy_updated_at : datetime
}.

(* ================================================================== *)
(** * The outside world and the monad of effects *)
(* ================================================================== *)

Inductive Exn : Type :=
| DatabaseError          (* a statement or a commit failed *)
| MultipleResultsFound   (* scalar_one_or_none() on more than one row *)
| BackendError           (* the text-generation backend failed *)
| TypeError.             (* a tool called with the wrong number of arguments *)

Inductive Result (A : Type) : Type :=
| Ok (a : A)
| Raise (e : Exn).
Arguments Ok {A} a.
Arguments Raise {A} e.

(** The messages handed to the text-generation backend. *)
Inductive ChatMessage : Type :=
| SystemMessage (content : string)
| HumanMessage (content : string).

Record World : Type := mkWorld {
  messages : list Message;
  orders : list Order;
  products : list Product;
  policies : list Policy;
  ticks : nat
}.

(** What the outside answers at each tick, and the configuration read
    once at start-up ([MAX_MEMORY_EXCHANGES], default 3). *)
Record Env : Type := mkEnv {
  utcnow : nat -> datetime;
  uuid4 : nat -> string;
  llm_ainvoke : nat -> list ChatMessage -> Result string;
  db_fails : nat -> bool;
  max_exchanges : Z
}.

Definition M (A : Type) : Type := Env -> World -> Result A * World.

Definition ret {A} (a : A) : M A := fun _ w => (Ok a, w).

Definition raise {A} (e : Exn) : M A := fun _ w => (Raise e, w).

Definition bind {A B} (m : M A) (k : A -> M B) : M B :=
  fun env w =>
    match m env w with
    | (Ok a, w') => k a env w'
    | (Raise e, w') => (Raise e, w')
    end.

Notation "x <- m ;; k" := (bind m (fun x => k))
  (at level 61, m at next level, right associativity).
Notation "m ;;; k" := (bind m (fun _ => k))
  (at level 61, right associativity).

(** [try: body except Exception as e: handler e] *)
Definition try_except {A} (body : M A) (handler : Exn -> M A) : M A :=
  fun env w =>
    match body env w with
    | (Ok a, w') => (Ok a, w')
    | (Raise e, w') => handler e env w'
    end.

Definition ask : M Env := fun env w => (Ok env, w).

Definition bump (w : World) : World :=
  mkWorld (messages w) (orders w) (products w) (policies w) (S (ticks w)).

(** [datetime.utcnow()] *)
Definition datetime_utcnow : M datetime :=
  fun env w => (Ok (utcnow env (ticks w)), bump w).

(** [str(uuid.uuid4())] *)
Definition uuid_uuid4 : M string :=
  fun env w => (Ok (uuid4 env (ticks w)), bump w).

(** [await self.llm.ainvoke(messages)] followed by [.content] *)
Definition llm_call (msgs : list ChatMessage) : M string :=
  fun env w => (llm_ainvoke env (ticks w) msgs, bump w).

(** [await db_session.execute(stmt)] for a SELECT, together with the
    reading of its result by [q]. *)
Definition db_execute {A} (q : World -> Result A) : M A :=
  fun env w =>
    if db_fails env (ticks w) then (Raise DatabaseError, bump w)
    else (q w, bump w).

(** [db_session.add(message)] followed by [await db_session.commit()]:
    the row is stored when the commit succeeds and dropped otherwise. *)
Definition db_add_commit (m : Message) : M unit :=
  fun env w =>
    if db_fails env (ticks w) then (Raise DatabaseError, bump w)
    else (Ok tt,
          bump (mkWorld (messages w ++ [m]) (orders w) (products w)
                        (policies w) (ticks w))).

(** [await db_session.refresh(message)] re-reads the stored row. *)
Definition db_refresh (m : Message) : M Message :=
  db_execute (fun _ => Ok m).

(** [await db_session.rollback()]: every write of the model is committed
    at once, so there is nothing pending to undo. *)
Definition db_rollback : M unit := ret tt.

(** [result.scalar_one_or_none()] *)
Definition scalar_one_or_none {A} (rows : list A) : Result (option A) :=
  match rows with
  | [] => Ok None
  | [r] => Ok (Some r)
  | _ :: _ :: _ => Raise MultipleResultsFound
  end.

(* ================================================================== *)
(** * [app/llm/prompts.py] *)
(* ================================================================== *)

Module Prompts.
Import PyStr.

(** [SYSTEM_PROMPT] up to the field [{memory_context}]. *)
Definition SYSTEM_PROMPT_head : string :=
  join nl
    [ "Anda adalah Chatbot Customer Support untuk sebuah toko online sederhana. ";
      "";
      "TUJUAN:";
      "- Menjawab pertanyaan pengguna dengan jelas, ringkas, dan membantu";
      "- Memanggil tools bila diperlukan untuk mendapatkan informasi akurat";
      "- Mempertahankan memori jangka pendek dari 3 interaksi terakhir per sesi";
      "";
      "INTENTS YANG DIDUKUNG:";
      "1. Status pesanan - jika user menanyakan pesanan dengan menyebutkan ID";
      "2. Informasi produk - jika user menanyakan kelebihan/fitur/spesifikasi produk";
      "3. Prosedur garansi - jika user menanyakan tentang klaim garansi";
      "";
      "ATURAN PENTING:";
      "- Jika user menanyakan pesanan dengan ID, WAJIB gunakan tool get_order_status";
      "- Jika user menanyakan produk tertentu, gunakan tool get_product_info";
      "- Jika user menanyakan garansi, gunakan tool get_warranty_policy";
      "- Berikan jawaban faktual dan step-by-step, hindari halusinasi";
      "- Jika informasi tidak lengkap, ajukan pertanyaan klarifikasi singkat";
      "- Batasi respons maksimal 180 kata kecuali user meminta detail";
      ("- SELALU akhiri dengan ringkasan satu kalimat diawali " ++ dq ++ "Ringkas: ..." ++ dq)%string;
      "";
      "GAYA KOMUNIKASI:";
      "- Ramah, profesional, dalam Bahasa Indonesia";
      "- Gunakan struktur yang jelas dengan numbering jika ada langkah-langkah";
      "- Hindari jargon teknis berlebihan";
      "";
      "CONTOH INTERAKSI:";
      "";
      ("User: " ++ dq ++ "Di mana pesanan saya? ID: ORD123" ++ dq)%string;
      ("Assistant: [Memanggil get_order_status(" ++ dq ++ "ORD123" ++ dq ++ ")]")%string;
      "Pesanan ORD123 sedang dalam pengiriman via JNE dengan nomor resi JNE789. Estimasi tiba 2 hari lagi pada 18 September 2025. Terakhir diupdate: 16 September 2025 pukul 14:30.";
      "";
      "Ringkas: Pesanan Anda sedang dikirim dan akan tiba dalam 2 hari.";
      "";
      ("User: " ++ dq ++ "Apa kelebihan laptop gaming X?" ++ dq)%string;
      ("Assistant: [Memanggil get_product_info(" ++ dq ++ "laptop gaming X" ++ dq ++ ")]")%string;
      ("Produk: Laptop Gaming X Pro. Fitur: Processor Intel i7-12700H, RAM 16GB DDR4, GPU RTX 4060 8GB, Storage 1TB NVMe SSD, Display 15.6" ++ dq ++ " 144Hz. Harga: Rp 18.500.000. Stok: 5 unit tersedia.")%string;
      "";
      "Keunggulan utama:";
      "1. Performa gaming tinggi dengan RTX 4060";
      "2. Refresh rate 144Hz untuk gaming smooth";
      "3. Storage SSD cepat untuk loading game";
      "4. RAM besar mendukung multitasking";
      "";
      "Ringkas: Laptop Gaming X Pro cocok untuk gaming berat dengan spesifikasi high-end dan harga kompetitif.";
      "";
      ("User: " ++ dq ++ "Bagaimana cara klaim garansi?" ++ dq)%string;
      "Assistant: [Memanggil get_warranty_policy()]";
      "Prosedur klaim garansi:";
      "1. Siapkan nota pembelian asli dan kartu garansi";
      "2. Hubungi customer service di 0800-1234-5678 (gratis) atau email cs@toko.com";
      "3. Jelaskan masalah produk dengan detail";
      "4. Tim CS akan memberikan instruksi selanjutnya (perbaikan atau penggantian)";
      "5. Garansi berlaku 1 tahun dari tanggal pembelian untuk kerusakan manufaktur";
      "";
      "Catatan: Garansi tidak berlaku untuk kerusakan akibat kesalahan penggunaan.";
      "";
      "Ringkas: Siapkan nota pembelian dan hubungi CS di 0800-1234-5678 untuk memulai proses klaim garansi.";
      "";
      "MEMORI KONTEKS:";
      "" ].

(** [SYSTEM_PROMPT] between the fields [{memory_context}] and [{user_message}]. *)
Definition SYSTEM_PROMPT_middle : string :=
  join nl
    [ "";
      "";
      "PESAN SAAT INI:";
      "" ].

(** [SYSTEM_PROMPT] after the field [{user_message}]. *)
Definition SYSTEM_PROMPT_tail : string :=
  join nl
    [ "";
      "";
      "Berikan respons yang tepat berdasarkan konteks memori dan gunakan tools yang sesuai bila diperlukan." ].

(** [FALLBACK_PROMPT] *)
Definition FALLBACK_PROMPT : string :=
  join nl
    [ "Maaf, saya adalah chatbot customer support yang khusus membantu dengan:";
      "";
      "1. **Status Pesanan** - Cek pesanan dengan menyebutkan ID pesanan";
      "2. **Informasi Produk** - Tanyakan spesifikasi atau fitur produk tertentu  ";
      "3. **Klaim Garansi** - Prosedur dan syarat klaim garansi";
      "";
      "Contoh pertanyaan yang bisa saya bantu:";
      ("- " ++ dq ++ "Di mana pesanan saya? ID: ORD123" ++ dq)%string;
      ("- " ++ dq ++ "Apa kelebihan laptop gaming Y?" ++ dq)%string;
      ("- " ++ dq ++ "Bagaimana cara klaim garansi?" ++ dq)%string;
      "";
      "Silakan ajukan pertanyaan sesuai kategori di atas, atau hubungi customer service di 0800-1234-5678 untuk bantuan lainnya.";
      "";
      "Ringkas: Saya membantu status pesanan, info produk, dan klaim garansi - silakan tanyakan sesuai kategori tersebut." ].

Definition get_fallback_response : string := FALLBACK_PROMPT.

(** [SYSTEM_PROMPT.format(user_message=..., memory_context=...)]: the
    template has these two fields and no other brace. *)
Definition format_prompt_with_context (user_message memory_context : string) : string :=
  SYSTEM_PROMPT_head ++ memory_context ++ SYSTEM_PROMPT_middle ++ user_message
    ++ SYSTEM_PROMPT_tail.

End Prompts.

(* ================================================================== *)
(** * [app/core/memory.py] *)
(* ================================================================== *)

(** One entry of the memory context: the dictionary with the keys
    [role] and [content]. *)
Record CtxEntry : Type := mkCtx { ctx_role : string; ctx_content : string }.

Module Sql.

(** The sort key of [ORDER BY turn_index, created_at]. *)
Definition msg_key (m : Message) : list Z :=
  Message_turn_index m :: datetime_key (Message_created_at m).

(** [a] is not before [b] in ascending key order. *)
Definition msg_geb (a b : Message) : bool :=
  match lex_compare (msg_key a) (msg_key b) with
  | Lt => false
  | _ => true
  end.

(** [ORDER BY ... DESC] as a stable insertion sort: rows with equal keys
    keep their storage order (SQL leaves their order open). *)
Fixpoint insert_desc (x : Message) (l : list Message) : list Message :=
  match l with
  | [] => [x]
  | y :: l' => if msg_geb x y then x :: l else y :: insert_desc x l'
  end.

Fixpoint order_by_desc (l : list Message) : list Message :=
  match l with
  | [] => []
  | x :: l' => insert_desc x (order_by_desc l')
  end.

(** [LIMIT n]; a negative limit is no limit (SQLite, the default
    [DATABASE_URL]). *)
Definition limit {A} (n : Z) (l : list A) : list A :=
  if (n <? 0)%Z then l else firstn (Z.to_nat n) l.

(** [WHERE Message.session_id == session_id] *)
Definition where_session (session_id : string) (l : list Message) : list Message :=
  filter (fun m => String.eqb (Message_session_id m) session_id) l.

(** [func.max(...)]: NULL over no row. *)
Fixpoint sql_max (l : list Z) : option Z :=
  match l with
  | [] => None
  | x :: l' =>
      match sql_max l' with
      | None => Some x
      | Some y => Some (Z.max x y)
      end
  end.

(** SQL [LIKE] on texts already folded to lower case: [%] stands for any
    run of characters, [_] for any one character. *)
Fixpoint like (pat s : string) : bool :=
  match pat with
  | EmptyString => match s with EmptyString => true | _ => false end
  | String c pat' =>
      if Ascii.eqb c "%" then
        (fix any (t : string) : bool :=
           like pat' t ||
           match t with
           | EmptyString => false
           | String _ t' => any t'
           end) s
      else
        match s with
        | EmptyString => false
        | String d s' =>
            (Ascii.eqb c "_" || Ascii.eqb c d) && like pat' s'
        end
  end.

(** [column.ilike(pattern)] *)
Definition ilike (column pattern : string) : bool :=
  like (PyStr.lower pattern) (PyStr.lower column).

End Sql.

Module MemoryManager.
Import PyStr.

(** [get_memory_context(session_id)] *)
Definition get_memory_context (session_id : string) : M (list CtxEntry) :=
  try_except
    (env <- ask ;;
     let max_turns := max_exchanges env in
     msgs <- db_execute (fun w =>
               Ok (Sql.limit (max_turns * 2)
                     (Sql.order_by_desc
                        (Sql.where_session session_id (messages w))))) ;;
     let msgs := rev msgs in
     let context :=
       map (fun msg => mkCtx (Message_role msg) (Message_content msg)) msgs in
     ret context)
    (fun _ => ret []).

(** [update_memory(...)]: a no-op. *)
Definition update_memory (session_id user_message assistant_message : string)
    (turn_index : Z) : M unit :=
  ret tt.

(** [format_memory_for_prompt(context)] *)
Definition format_memory_for_prompt (context : list CtxEntry) : string :=
  match context with
  | [] => "Tidak ada riwayat percakapan sebelumnya."
  | _ :: _ =>
      let formatted_lines :=
        "Riwayat percakapan sebelumnya:" ::
        map (fun msg =>
               let role_label :=
                 if String.eqb (ctx_role msg) "user" then "Pengguna" else "Asisten" in
               (role_label ++ ": " ++ ctx_content msg)%string)
            context in
      join nl formatted_lines
  end.

(** [await db_session.execute(delete(Message).where(...))] followed by
    [await db_session.commit()]: two statements, each of which may fail;
    the rows are gone only when both succeed. *)
Definition db_delete_commit (session_id : string) : M unit :=
  fun env w =>
    if db_fails env (ticks w) then (Raise DatabaseError, bump w)
    else if db_fails env (S (ticks w)) then (Raise DatabaseError, bump (bump w))
    else (Ok tt,
          bump (bump (mkWorld
                        (filter (fun m => negb (String.eqb (Message_session_id m)
                                                  session_id))
                                (messages w))
                        (orders w) (products w) (policies w) (ticks w)))).

(** [clear_memory(session_id)] *)
Definition clear_memory (session_id : string) : M unit :=
  try_except (db_delete_commit session_id)
    (fun e => db_rollback ;;; raise e).

End MemoryManager.

(* ================================================================== *)
(** * [app/core/tools.py] *)
(* ================================================================== *)

Module Tools.
Import PyStr.

Definition status_messages : list (string * string) :=
  [ ("pending", "sedang diproses");
    ("confirmed", "telah dikonfirmasi");
    ("shipped", "sedang dalam pengiriman");
    ("delivered", "telah sampai tujuan");
    ("cancelled", "telah dibatalkan") ].

(** [d.get(key, default)] *)
Fixpoint dict_get (d : list (string * string)) (key default : string) : string :=
  match d with
  | [] => default
  | (k, v) :: d' => if String.eqb k key then v else dict_get d' key default
  end.

(** [x in xs] for a list of texts. *)
Definition str_in (x : string) (xs : list string) : bool :=
  existsb (String.eqb x) xs.

Definition opt_str (o : option string) : string :=
  match o with Some s => s | None => "" end.

(** The parts joined by [get_order_status_impl] for an order it found. *)
Definition order_response_parts (order_id : string) (order : Order) : list string :=
  let status_text := dict_get status_messages (Order_status order) (Order_status order) in
  let response_parts := [("Pesanan " ++ order_id ++ " " ++ status_text)%string] in
  let response_parts :=
    if truthy_opt (Order_carrier order) && truthy_opt (Order_tracking_number order)
    then response_parts ++
         [("via " ++ opt_str (Order_carrier order) ++ " dengan nomor resi "
             ++ opt_str (Order_tracking_number order))%string]
    else response_parts in
  let response_parts :=
    match Order_eta_date order with
    | Some eta_date =>
        if str_in (Order_status order) ["confirmed"; "shipped"]
        then let eta_str := strftime_date eta_date in
             response_parts ++ [("dengan estimasi tiba " ++ eta_str)%string]
        else response_parts
    | None => response_parts
    end in
  let response_parts :=
    (* [order.last_update_at] is not nullable: always true *)
    let update_str := strftime_date_time (Order_last_update_at order) in
    response_parts ++ [("Terakhir diupdate: " ++ update_str)%string] in
  response_parts.

Definition order_found_message (order_id : string) (order : Order) : string :=
  join ". " (order_response_parts order_id order) ++ ".".

Definition order_not_found_message (order_id : string) : string :=
  "Pesanan dengan ID " ++ order_id
    ++ " tidak ditemukan. Pastikan ID pesanan benar atau hubungi customer service.".

Definition order_error_message (order_id : string) : string :=
  "Maaf, terjadi kesalahan saat mencari pesanan " ++ order_id
    ++ ". Silakan coba lagi atau hubungi customer service.".

(** [get_order_status_impl(order_id, db_session)] *)
Definition get_order_status_impl (order_id : string) : M string :=
  try_except
    (order <- db_execute (fun w =>
                scalar_one_or_none
                  (filter (fun o => String.eqb (Order_id o) order_id) (orders w))) ;;
     match order with
     | None => ret (order_not_found_message order_id)
     | Some order => ret (order_found_message order_id order)
     end)
    (fun _ => ret (order_error_message order_id)).

(** Digits grouped in threes from the right, for the format [,]. *)
Fixpoint group3_rev (sep : string) (count : nat) (digits_rev : string) : string :=
  match digits_rev with
  | EmptyString => ""
  | String c rest =>
      match count with
      | 3 => sep ++ String c (group3_rev sep 1 rest)
      | _ => String c (group3_rev sep (S count) rest)
      end
  end.

Definition group3 (sep digits : string) : string :=
  reverse (group3_rev (reverse sep) 0 (reverse digits)).

(** A price in hundredths rounded to units, half to even. *)
Definition round_half_even_100 (a : Z) : Z :=
  let q := (a / 100)%Z in
  let r := (a mod 100)%Z in
  if (r <? 50)%Z then q
  else if (50 <? r)%Z then (q + 1)%Z
  else if Z.even q then q else (q + 1)%Z.

(** [f"Rp {price:,.0f}".replace(",", ".")] *)
Definition price_formatted (price : Z) : string :=
  let sign := if (price <? 0)%Z then "-" else "" in
  "Rp " ++ sign ++ group3 "." (str_of_Z (round_half_even_100 (Z.abs price))).

Definition product_response_parts (product : Product) : list string :=
  let response_parts := [("Produk: " ++ Product_name product)%string] in
  let response_parts :=
    if truthy_opt (Product_features product)
    then response_parts ++ [("Fitur: " ++ opt_str (Product_features product))%string]
    else response_parts in
  let response_parts :=
    match Product_price product with
    | Some price =>
        if (price =? 0)%Z then response_parts
        else response_parts ++ [("Harga: " ++ price_formatted price)%string]
    | None => response_parts
    end in
  let response_parts :=
    match Product_stock product with
    | Some stock =>
        if (0 <? stock)%Z
        then response_parts ++ [("Stok: " ++ str_of_Z stock ++ " unit tersedia")%string]
        else response_parts ++ ["Stok: sedang kosong"]
    | None => response_parts
    end in
  response_parts.

(** [get_product_info_impl(product_name, db_session)] *)
Definition get_product_info_impl (product_name : string) : M string :=
  try_except
    (found <- db_execute (fun w =>
                Ok (filter (fun p => Sql.ilike (Product_name p)
                                       ("%" ++ product_name ++ "%"))
                           (products w))) ;;
     match found with
     | [] =>
         ret ("Produk '" ++ product_name
                ++ "' tidak ditemukan. Silakan periksa nama produk atau lihat katalog lengkap di website kami.")%string
     | product :: _ =>
         ret (join ". " (product_response_parts product) ++ ".")%string
     end)
    (fun _ =>
       ret ("Maaf, terjadi kesalahan saat mencari produk '" ++ product_name
              ++ "'. Silakan coba lagi.")%string).

(** The text returned when no warranty policy is stored. *)
Definition default_warranty_policy : string :=
  join nl
    [ "Prosedur klaim garansi:";
      "1. Siapkan nota pembelian asli dan kartu garansi";
      "2. Hubungi customer service di 0800-1234-5678 (gratis) atau email cs@toko.com";
      "3. Jelaskan masalah produk dengan detail";
      "4. Tim CS akan memberikan instruksi selanjutnya (perbaikan atau penggantian)";
      "5. Garansi berlaku 1 tahun dari tanggal pembelian untuk kerusakan manufaktur";
      "";
      "Catatan: Garansi tidak berlaku untuk kerusakan akibat kesalahan penggunaan atau faktor eksternal." ].

Definition warranty_error_message : string :=
  "Maaf, terjadi kesalahan saat mengambil informasi garansi. Silakan hubungi customer service di 0800-1234-5678.".

(** [get_warranty_policy_impl(db_session)] *)
Definition get_warranty_policy_impl : M string :=
  try_except
    (policy <- db_execute (fun w =>
                 scalar_one_or_none
                   (filter (fun p => String.eqb (Policy_type p) "warranty")
                           (policies w))) ;;
     match policy with
     | None => ret default_warranty_policy
     | Some policy => ret (Policy_content_markdown policy)
     end)
    (fun _ => ret warranty_error_message).

(** A LangChain [Tool]: its name and its function, applied to the list
    of its positional arguments. *)
Record Tool : Type := mkTool {
  tool_name : string;
  tool_func : list string -> M string
}.

Definition create_order_status_tool : Tool :=
  mkTool "get_order_status"
    (fun args =>
       match args with
       | [order_id] => get_order_status_impl order_id
       | _ => raise TypeError
       end).

Definition create_product_info_tool : Tool :=
  mkTool "get_product_info"
    (fun args =>
       match args with
       | [product_name] => get_product_info_impl product_name
       | _ => raise TypeError
       end).

Definition create_warranty_policy_tool : Tool :=
  mkTool "get_warranty_policy"
    (fun args =>
       match args with
       | [] => get_warranty_policy_impl
       | _ => raise TypeError
       end).

Definition get_tools : list Tool :=
  [ create_order_status_tool; create_product_info_tool;
    create_warranty_policy_tool ].

End Tools.


(* ================================================================== *)
(** * [app/llm/chain.py] *)
(* ================================================================== *)

Module ChatChain.
Import PyStr.

(** What [invoke] returns: the dictionary with the keys [message],
    [tool_calls] and [session_id]. *)
Record LlmResponse : Type := mkLlmResponse {
  message : string;
  tool_calls : list string;
  session_id : string
}.

(** [any(keyword.lower() in message_lower for keyword in keywords)] *)
Definition any_keyword (keywords : list string) (message : string) : bool :=
  let message_lower := lower message in
  existsb (fun keyword => contains (lower keyword) message_lower) keywords.

Definition _should_call_order_tool (message : string) : bool :=
  any_keyword ["pesanan"; "order"; "status"; "di mana"; "dimana"; "ID:"; "id:"; "ORD"]
    message.

Definition _should_call_product_tool (message : string) : bool :=
  any_keyword ["produk"; "kelebihan"; "fitur"; "spesifikasi"; "harga"; "laptop";
               "smartphone"; "apa kelebihan"]
    message.

Definition _should_call_warranty_tool (message : string) : bool :=
  any_keyword ["garansi"; "warranty"; "klaim"; "cara klaim"; "prosedur"] message.

(** [[A-Z0-9]], [[A-Za-z0-9\s]] and [[\?\.]] *)
Definition cls_AZ09 : Re.charclass := fun c => is_upper c || is_digit c.
Definition cls_AZaz09s : Re.charclass :=
  fun c => is_upper c || is_lower c || is_digit c || isspace c.
Definition cls_qmark_dot : Re.charclass :=
  fun c => Ascii.eqb c "?" || Ascii.eqb c ".".

(** The first pattern that matches gives the result. *)
Fixpoint first_match (patterns : list Re.regex) (message : string) : option string :=
  match patterns with
  | [] => None
  | pattern :: patterns' =>
      match Re.search_group1 true pattern message with
      | Some g => Some g
      | None => first_match patterns' message
      end
  end.

Definition order_id_patterns : list Re.regex :=
  [ (* ID\s*:\s*([A-Z0-9]+) *)
    Re.cat [Re.Lit "ID"; Re.Star Re.cls_space; Re.Lit ":"; Re.Star Re.cls_space;
            Re.Group (Re.Plus cls_AZ09)];
    (* id\s*:\s*([A-Z0-9]+) *)
    Re.cat [Re.Lit "id"; Re.Star Re.cls_space; Re.Lit ":"; Re.Star Re.cls_space;
            Re.Group (Re.Plus cls_AZ09)];
    (* \b(ORD[A-Z0-9]+)\b *)
    Re.cat [Re.WordB; Re.Group (Re.Seq (Re.Lit "ORD") (Re.Plus cls_AZ09)); Re.WordB] ].

(** [_extract_order_id(message)], for a message of ASCII text *)
Definition _extract_order_id (message : string) : string :=
  match first_match order_id_patterns message with
  | Some g => g
  | None => ""
  end.

Definition product_name_patterns : list Re.regex :=
  [ (* produk\s+([A-Za-z0-9\s]+?)[\?\.] *)
    Re.cat [Re.Lit "produk"; Re.Plus Re.cls_space;
            Re.Group (Re.PlusLazy cls_AZaz09s); Re.Cls cls_qmark_dot];
    (* laptop\s+([A-Za-z0-9\s]+?)[\?\.] *)
    Re.cat [Re.Lit "laptop"; Re.Plus Re.cls_space;
            Re.Group (Re.PlusLazy cls_AZaz09s); Re.Cls cls_qmark_dot];
    (* smartphone\s+([A-Za-z0-9\s]+?)[\?\.] *)
    Re.cat [Re.Lit "smartphone"; Re.Plus Re.cls_space;
            Re.Group (Re.PlusLazy cls_AZaz09s); Re.Cls cls_qmark_dot] ].

(** The loop over keywords after the patterns failed. *)
Fixpoint product_name_fallback (keywords : list string) (message : string) : string :=
  match keywords with
  | [] => "produk"
  | keyword :: keywords' =>
      if contains (lower keyword) (lower message) then
        let parts := split (lower keyword) (lower message) in
        match parts with
        | _ :: part1 :: _ =>
            let candidate := firstn 3 (split_ws (strip part1)) in
            strip_chars ".,?!" (join " " candidate)
        | _ => product_name_fallback keywords' message
        end
      else product_name_fallback keywords' message
  end.

(** [_extract_product_name(message)], for a message of ASCII text *)
Definition _extract_product_name (message : string) : string :=
  match first_match product_name_patterns message with
  | Some g => strip g
  | None => product_name_fallback ["produk"; "laptop"; "smartphone"] message
  end.

(** [key in d] and [d[key]] for the dictionary of tool results. *)
Fixpoint dict_lookup (d : list (string * string)) (key : string) : option string :=
  match d with
  | [] => None
  | (k, v) :: d' => if String.eqb k key then Some v else dict_lookup d' key
  end.

Definition add_summary (result summary : string) : string :=
  if negb (endswith "Ringkas:" result)
  then (result ++ nl ++ nl ++ summary)%string
  else result.

(** [_generate_response_with_tools(user_message, tool_results, memory_context)] *)
Definition _generate_response_with_tools (user_message : string)
    (tool_results : list (string * string)) (memory_context : string) : M string :=
  match dict_lookup tool_results "order_status" with
  | Some result =>
      ret (add_summary result
             "Ringkas: Informasi pesanan telah ditemukan dan disampaikan.")
  | None =>
  match dict_lookup tool_results "product_info" with
  | Some result =>
      ret (add_summary result
             "Ringkas: Informasi produk telah disampaikan dengan lengkap.")
  | None =>
  match dict_lookup tool_results "warranty_policy" with
  | Some result =>
      ret (add_summary result
             "Ringkas: Prosedur klaim garansi telah dijelaskan lengkap.")
  | None => ret "Maaf, terjadi kesalahan dalam memproses permintaan Anda."
  end end end.

(** [_generate_regular_response(user_message, memory_context)] *)
Definition _generate_regular_response (user_message memory_context : string) : M string :=
  try_except
    (let msgs :=
       [ SystemMessage (Prompts.format_prompt_with_context user_message memory_context);
         HumanMessage user_message ] in
     llm_call msgs)
    (fun _ => ret Prompts.get_fallback_response).

(** [next((t for t in tools if t.name == name), None)] *)
Definition find_tool (name : string) (tools : list Tools.Tool) : option Tools.Tool :=
  find (fun t => String.eqb (Tools.tool_name t) name) tools.

(** The last step of [invoke]: the check for the summary marker. *)
Definition ensure_summary (response_message : string) : string :=
  if negb (endswith "Ringkas:" (strip response_message)) then
    if negb (contains "Ringkas:" response_message) then
      (response_message ++ nl ++ nl
         ++ "Ringkas: Sudah memberikan jawaban sesuai pertanyaan Anda.")%string
    else response_message
  else response_message.

(** [invoke(user_message, memory_context, tools, session_id)] *)
Definition invoke (user_message : string) (memory_context : list CtxEntry)
    (tools : list Tools.Tool) (session_id : string) : M LlmResponse :=
  try_except
    (let memory_text := MemoryManager.format_memory_for_prompt memory_context in
     let system_prompt := Prompts.format_prompt_with_context user_message memory_text in
     let no_tool : M (list string * list (string * string)) := ret ([], []) in
     called <-
       (if _should_call_order_tool user_message then
          let order_id := _extract_order_id user_message in
          if truthy order_id then
            match find_tool "get_order_status" tools with
            | Some order_tool =>
                result <- Tools.tool_func order_tool [order_id] ;;
                ret (["get_order_status"], [("order_status", result)])
            | None => no_tool
            end
          else no_tool
        else if _should_call_product_tool user_message then
          let product_name := _extract_product_name user_message in
          if truthy product_name then
            match find_tool "get_product_info" tools with
            | Some product_tool =>
                result <- Tools.tool_func product_tool [product_name] ;;
                ret (["get_product_info"], [("product_info", result)])
            | None => no_tool
            end
          else no_tool
        else if _should_call_warranty_tool user_message then
          match find_tool "get_warranty_policy" tools with
          | Some warranty_tool =>
              result <- Tools.tool_func warranty_tool [] ;;
              ret (["get_warranty_policy"], [("warranty_policy", result)])
          | None => no_tool
          end
        else no_tool) ;;
     let tool_calls := fst called in
     let tool_results := snd called in
     response_message <-
       (match tool_results with
        | _ :: _ => _generate_response_with_tools user_message tool_results memory_text
        | [] => _generate_regular_response user_message memory_text
        end) ;;
     let response_message := ensure_summary response_message in
     ret (mkLlmResponse response_message tool_calls session_id))
    (fun _ => ret (mkLlmResponse Prompts.get_fallback_response [] session_id)).

End ChatChain.

(* ================================================================== *)
(** * [app/core/chat_service.py] *)
(* ================================================================== *)

Record ChatResponse : Type := mkChatResponse {
  resp_message : string;
  resp_session_id : string;
  resp_turn_index : Z;
  resp_tool_calls : list string;
  resp_timestamp : datetime
}.

Module ChatService.

(** [(max_turn or 0) + 1] *)
Definition next_of_max (max_turn : option Z) : Z :=
  match max_turn with
  | None => 0 + 1
  | Some m => (if (m =? 0)%Z then 0 else m) + 1
  end%Z.

(** [_get_next_turn_index(session_id)] *)
Definition _get_next_turn_index (session_id : string) : M Z :=
  max_turn <- db_execute (fun w =>
                Ok (Sql.sql_max
                      (map Message_turn_index
                           (Sql.where_session session_id (messages w))))) ;;
  ret (next_of_max max_turn).

(** [_save_message(session_id, role, content, turn_index)] *)
Definition _save_message (session_id role content : string) (turn_index : Z) : M Message :=
  id <- uuid_uuid4 ;;
  created_at <- datetime_utcnow ;;
  let message := mkMessage id session_id role content turn_index created_at in
  db_add_commit message ;;;
  db_refresh message.

(** The first statements of [process_message]: the turn index, the
    write of the user message and the read of the memory context. *)
Definition process_message_begin (session_id user_message : string)
    : M (Z * list CtxEntry) :=
  turn_index <- _get_next_turn_index session_id ;;
  user_msg <- _save_message session_id "user" user_message turn_index ;;
  memory_context <- MemoryManager.get_memory_context session_id ;;
  ret (turn_index, memory_context).

(** [process_message(session_id, user_message)] *)
Definition process_message (session_id user_message : string) : M ChatResponse :=
  try_except
    (begun <- process_message_begin session_id user_message ;;
     let turn_index := fst begun in
     let memory_context := snd begun in
     let tools := Tools.get_tools in
     llm_response <- ChatChain.invoke user_message memory_context tools session_id ;;
     let assistant_message := ChatChain.message llm_response in
     let tool_calls := ChatChain.tool_calls llm_response in
     assistant_msg <- _save_message session_id "assistant" assistant_message turn_index ;;
     MemoryManager.update_memory session_id user_message assistant_message turn_index ;;;
     ret (mkChatResponse assistant_message session_id turn_index tool_calls
            (Message_created_at assistant_msg)))
    (fun e => db_rollback ;;; raise e).

End ChatService.

(* ================================================================== *)
(** * Vocabulary of the properties *)
(* ================================================================== *)

(** The reply ends with a line that begins with the summary marker. *)
Definition ends_with_summary_line (reply : string) : bool :=
  PyStr.startswith "Ringkas:" (PyStr.last_line reply).

(** [a] comes no later than [b]: ascending (turn index, creation time),
    the reverse of the order of the memory query. *)
Definition chrono_le (a b : Message) : Prop := Sql.msg_geb b a = true.

(** The order of the memory query: [a] is not before [b]. *)
Definition desc (a b : Message) : Prop := Sql.msg_geb a b = true.

(** [m] never raises and talks to the outside exactly once, leaving the
    tables as they are. *)
Definition one_step {A} (m : M A) : Prop :=
  forall env w, exists a, m env w = (Ok a, bump w).

Definition to_ctx (m : Message) : CtxEntry :=
  mkCtx (Message_role m) (Message_content m).

(** The highest turn index stored for a session, 0 when it has no
    message. *)
Definition max_turn_or_zero (session_id : string) (log : list Message) : Z :=
  match Sql.sql_max (map Message_turn_index (Sql.where_session session_id log)) with
  | Some m => m
  | None => 0%Z
  end.

(** Sequential single-threaded use: one call of [process_message] after
    the other, each a pair of a session and an utterance. *)
Fixpoint sequential_use (requests : list (string * string)) : M (list ChatResponse) :=
  match requests with
  | [] => ret []
  | (session_id, user_message) :: requests' =>
      response <- ChatService.process_message session_id user_message ;;
      responses <- sequential_use requests' ;;
      ret (response :: responses)
  end.

Definition turn_indices_of (session_id : string) (responses : list ChatResponse) : list Z :=
  map resp_turn_index
    (filter (fun r => String.eqb (resp_session_id r) session_id) responses).

(** [first + 1, first + 2, ..., first + n] *)
Fixpoint count_up (first : Z) (n : nat) : list Z :=
  match n with
  | O => []
  | S k => (first + 1)%Z :: count_up (first + 1)%Z k
  end.

(** The utterance leads to no tool call: no intent matches, or the
    matching intent yields no argument. *)
Definition no_tool_utterance (user_message : string) : bool :=
  if ChatChain._should_call_order_tool user_message
  then negb (PyStr.truthy (ChatChain._extract_order_id user_message))
  else if ChatChain._should_call_product_tool user_message
  then negb (PyStr.truthy (ChatChain._extract_product_name user_message))
  else negb (ChatChain._should_call_warranty_tool user_message).

(** The utterance is routed to the warranty intent. *)
Definition warranty_utterance (user_message : string) : bool :=
  negb (ChatChain._should_call_order_tool user_message)
  && negb (ChatChain._should_call_product_tool user_message)
  && ChatChain._should_call_warranty_tool user_message.

(** Routing in the words of the specification: the three intents in
    the fixed order order status, product info, warranty policy; the
    first one that matches decides, and it names its tool when it has
    its argument. *)
Definition route_tool_calls (user_message : string) : list string :=
  if ChatChain._should_call_order_tool user_message then
    if PyStr.truthy (ChatChain._extract_order_id user_message)
    then ["get_order_status"] else []
  else if ChatChain._should_call_product_tool user_message then
    if PyStr.truthy (ChatChain._extract_product_name user_message)
    then ["get_product_info"] else []
  else if ChatChain._should_call_warranty_tool user_message then
    ["get_warranty_policy"]
  else [].

(** The tools of a list that answer to the name of the order lookup. *)
Definition order_tools_only (tools : list Tools.Tool) : list Tools.Tool :=
  filter (fun t => String.eqb (Tools.tool_name t) "get_order_status") tools.

(** What the generative path answers in a given world. *)
Definition generative_reply (user_message : string) (memory_context : list CtxEntry)
    (env : Env) (w : World) : string :=
  let memory_text := MemoryManager.format_memory_for_prompt memory_context in
  match llm_ainvoke env (ticks w)
          [ SystemMessage (Prompts.format_prompt_with_context user_message memory_text);
            HumanMessage user_message ] with
  | Ok content => ChatChain.ensure_summary content
  | Raise _ => ChatChain.ensure_summary Prompts.get_fallback_response
  end.

(** The order message in the words of the specification: the mapped
    status term, the carrier and tracking number when both are present,
    the ETA when the status is confirmed or shipped and an ETA exists,
    the last update. *)
Definition status_term (status : string) : string :=
  if String.eqb status "pending" then "sedang diproses"
  else if String.eqb status "confirmed" then "telah dikonfirmasi"
  else if String.eqb status "shipped" then "sedang dalam pengiriman"
  else if String.eqb status "delivered" then "telah sampai tujuan"
  else if String.eqb status "cancelled" then "telah dibatalkan"
  else status.

Definition carrier_part (order : Order) : list string :=
  match Order_carrier order, Order_tracking_number order with
  | Some carrier, Some tracking =>
      if PyStr.truthy carrier && PyStr.truthy tracking
      then [("via " ++ carrier ++ " dengan nomor resi " ++ tracking)%string]
      else []
  | _, _ => []
  end.

Definition eta_part (order : Order) : list string :=
  match Order_eta_date order with
  | Some eta =>
      if String.eqb (Order_status order) "confirmed"
         || String.eqb (Order_status order) "shipped"
      then [("dengan estimasi tiba " ++ strftime_date eta)%string]
      else []
  | None => []
  end.

Definition order_message_spec (order_id : string) (order : Order) : string :=
  (PyStr.join ". "
     ([("Pesanan " ++ order_id ++ " " ++ status_term (Order_status order))%string]
        ++ carrier_part order ++ eta_part order
        ++ [("Terakhir diupdate: "
               ++ strftime_date_time (Order_last_update_at order))%string])
   ++ ".")%string.

Definition with_eta (order : Order) (eta : option datetime) : Order :=
  mkOrder (Order_id order) (Order_user_id order) (Order_status order)
    (Order_last_update_at order) eta (Order_carrier order)
    (Order_tracking_number order).

(** The reply of a warranty turn that found no stored policy. *)
Definition default_warranty_reply : string :=
  (Tools.default_warranty_policy ++ PyStr.nl ++ PyStr.nl
     ++ "Ringkas: Prosedur klaim garansi telah dijelaskan lengkap.")%string.

(** The value of a run that returned, [d] for one that raised. *)
Definition ok_or {A} (d : A) (r : Result A) : A :=
  match r with Ok a => a | Raise _ => d end.

(** The texts of the product lookup. *)
Definition product_not_found_message (product_name : string) : string :=
  ("Produk '" ++ product_name
     ++ "' tidak ditemukan. Silakan periksa nama produk atau lihat katalog lengkap di website kami.")%string.

Definition product_error_message (product_name : string) : string :=
  ("Maaf, terjadi kesalahan saat mencari produk '" ++ product_name
     ++ "'. Silakan coba lagi.")%string.

Definition product_found_message (product : Product) : string :=
  (PyStr.join ". " (Tools.product_response_parts product) ++ ".")%string.

(** The summary lines appended to the text of a tool. *)
Definition order_summary : string :=
  "Ringkas: Informasi pesanan telah ditemukan dan disampaikan.".

Definition product_summary : string :=
  "Ringkas: Informasi produk telah disampaikan dengan lengkap.".

(** A tool text followed by a blank line and a summary line. *)
Definition with_summary (text summary : string) : string :=
  (text ++ PyStr.nl ++ PyStr.nl ++ summary)%string.

(** The text ends with a full stop. *)
Definition ends_with_dot (text : string) : Prop :=
  exists body, text = (body ++ ".")%string.

(** The world [k] ticks later, and the world with one more message. *)
Definition advance (k : nat) (w : World) : World :=
  mkWorld (messages w) (orders w) (products w) (policies w) (k + ticks w).

Definition store (m : Message) (w : World) : World :=
  mkWorld (messages w ++ [m]) (orders w) (products w) (policies w) (ticks w).

(** The turn indices of a session, in storage order, never go down and
    are all positive. *)
Definition turns_in_order (session_id : string) (log : list Message) : Prop :=
  StronglySorted Z.le (map Message_turn_index (Sql.where_session session_id log))
  /\ Forall (fun t => (1 <= t)%Z)
            (map Message_turn_index (Sql.where_session session_id log)).

(** The summary line of the warranty tool. *)
Definition warranty_summary : string :=
  "Ringkas: Prosedur klaim garansi telah dijelaskan lengkap.".

(** The label [format_memory_for_prompt] gives to a role. *)
Definition role_label (role : string) : string :=
  if String.eqb role "user" then "Pengguna" else "Asisten".

(** The name holds none of the wildcards of [LIKE]. *)
Fixpoint wildcard_free (name : string) : bool :=
  match name with
  | EmptyString => true
  | String c name' =>
      negb (Ascii.eqb c "%" || Ascii.eqb c "_") && wildcard_free name'
  end.

(** The name is made of the character % only. *)
Fixpoint percent_only (name : string) : bool :=
  match name with
  | EmptyString => true
  | String c name' => Ascii.eqb c "%" && percent_only name'
  end.

(** Every character of the text satisfies [q]. *)
Fixpoint allc (q : ascii -> bool) (s : string) : bool :=
  match s with
  | EmptyString => true
  | String c s' => q c && allc q s'
  end.

(** The text is made of ASCII characters (code points below 128): the
    texts on which the model of [str], of [\s], [\w], [\b] and of
    [re.IGNORECASE] is Python's. *)
Definition is_ascii (s : string) : bool :=
  allc (fun c => (nat_of_ascii c <? 128)%nat) s.

(** A letter or a digit. *)
Definition alnum (c : ascii) : bool :=
  PyStr.is_upper c || PyStr.is_lower c || PyStr.is_digit c.

(** Every character a match of the pattern can consume satisfies [q]. *)
Fixpoint lit_within (q : ascii -> bool) (flags : bool) (l : string) : Prop :=
  match l with
  | EmptyString => True
  | String a l' =>
      (forall d, Re.char_eq flags a d = true -> q d = true)
      /\ lit_within q flags l'
  end.

Fixpoint within (q : ascii -> bool) (flags : bool) (r : Re.regex) : Prop :=
  match r with
  | Re.Lit l => lit_within q flags l
  | Re.Cls p | Re.Star p | Re.Plus p | Re.PlusLazy p =>
      forall c, Re.in_cls flags p c = true -> q c = true
  | Re.WordB => True
  | Re.Group r' => within q flags r'
  | Re.Seq r1 r2 => within q flags r1 /\ within q flags r2
  end.

(** The same for what the groups of the pattern capture. *)
Fixpoint groups_within (q : ascii -> bool) (flags : bool) (r : Re.regex) : Prop :=
  match r with
  | Re.Group r' => within q flags r'
  | Re.Seq r1 r2 => groups_within q flags r1 /\ groups_within q flags r2
  | _ => True
  end.

(** A match of the pattern consumes at least one character. *)
Fixpoint nonnull (r : Re.regex) : bool :=
  match r with
  | Re.Lit l => PyStr.truthy l
  | Re.Cls _ | Re.Plus _ | Re.PlusLazy _ => true
  | Re.Star _ | Re.WordB => false
  | Re.Group r' => nonnull r'
  | Re.Seq r1 r2 => nonnull r1 || nonnull r2
  end.

(** Every match of the pattern goes through a group. *)
Fixpoint always_groups (r : Re.regex) : bool :=
  match r with
  | Re.Group _ => true
  | Re.Seq r1 r2 => always_groups r1 || always_groups r2
  | _ => false
  end.

(** No group of the pattern can capture the empty text. *)
Fixpoint group_nonnull (r : Re.regex) : bool :=
  match r with
  | Re.Group r' => nonnull r'
  | Re.Seq r1 r2 => group_nonnull r1 && group_nonnull r2
  | _ => true
  end.

(** A letter, a digit or white space. *)
Definition alnum_or_space (c : ascii) : bool := alnum c || PyStr.isspace c.

(** The first product, in storage order, whose name contains the text,
    letter case aside. *)
Definition first_product_containing (name : string) (table : list Product)
    : option Product :=
  find (fun p => PyStr.contains (PyStr.lower name) (PyStr.lower (Product_name p)))
       table.

(** ** Sample worlds *)

Module Sample.

Definition clock (n : nat) : datetime := mkDatetime 2025 September 16 14 30 n 0.

Definition ident (n : nat) : string := ("m" ++ PyStr.str_of_nat n)%string.

(** An environment without database faults whose backend always answers
    [reply]. *)
Definition env_with (reply : Result string) (window : Z) : Env :=
  mkEnv clock ident (fun _ _ => reply) (fun _ => false) window.

Definition env_ok : Env := env_with (Ok "Baik. Ringkas: baik.") 3.

Definition env_backend_down : Env := env_with (Raise BackendError) 3.

(** The backend puts the marker in the middle of its text. *)
Definition env_marker_inside : Env :=
  env_with (Ok ("Ringkas: ok" ++ PyStr.nl ++ "Terima kasih")%string) 3.

(** Every statement sent to the database fails. *)
Definition env_db_down : Env :=
  mkEnv clock ident (fun _ _ => Ok "Baik. Ringkas: baik.") (fun _ => true) 3.

(** Only the memory query of a turn started at tick 0 fails. *)
Definition env_memory_down : Env :=
  mkEnv clock ident (fun _ _ => Ok "Baik. Ringkas: baik.") (fun n => Nat.eqb n 5) 3.

(** Only the write of the assistant message of a turn started at tick 0
    fails. *)
Definition env_assistant_write_down : Env :=
  mkEnv clock ident (fun _ _ => Ok "Baik. Ringkas: baik.") (fun n => Nat.eqb n 9) 3.

Definition requests : list (string * string) :=
  [ ("s1", "halo"); ("s2", "Bagaimana cara klaim garansi?");
    ("s1", "Di mana pesanan saya? ID: ORD123") ].

Definition laptop_x : Product :=
  mkProduct "P1" "Laptop Gaming X" (Some "RTX 4060") (Some 1850000000%Z) (Some 5%Z).

Definition laptop_x_pro : Product :=
  mkProduct "P2" "Laptop Gaming X Pro" None None (Some 0%Z).

Definition catalogue_world : World :=
  mkWorld [] [] [mkProduct "P0" "Mouse" None None None; laptop_x; laptop_x_pro] [] 0.

Definition order_shipped : Order :=
  mkOrder "ORD123" "u1" "shipped" (mkDatetime 2025 September 16 14 30 0 0)
    (Some (mkDatetime 2025 September 18 0 0 0 0)) (Some "JNE") (Some "JNE789").

Definition policy (id content : string) : Policy :=
  mkPolicy id "warranty" content (clock 0) (clock 0).

Definition empty_world : World := mkWorld [] [] [] [] 0.

Definition shop_world : World := mkWorld [] [order_shipped] [] [] 0.

Definition two_policies_world : World :=
  mkWorld [] [] [] [policy "p1" "Garansi A"; policy "p2" "Garansi B"] 0.

Definition one_policy_world : World :=
  mkWorld [] [] [] [policy "p1" "Garansi A"] 0.

Definition old_message (turn : Z) (sec : nat) (role content : string) : Message :=
  mkMessage "old" "s1" role content turn (mkDatetime 2025 September 16 9 0 sec 0).

Definition history_world : World :=
  mkWorld [ old_message 1 1 "user" "halo"; old_message 1 2 "assistant" "hai";
            old_message 2 3 "user" "apa kabar"; old_message 2 4 "assistant" "baik" ]
          [] [] [] 0.

End Sample.

(* ================================================================== *)
(** * Facts about texts *)
(* ================================================================== *)

Section TextFacts.
Import PyStr.

Lemma append_assoc (a b c : string) : ((a ++ b) ++ c = a ++ (b ++ c))%string.
Proof.
  induction a as [|x a IH]; simpl; [reflexivity | now rewrite IH].
Qed.

Lemma startswith_append (p s : string) : startswith p (p ++ s) = true.
Proof.
  induction p as [|x p IH]; simpl; [reflexivity |].
  now rewrite Ascii.eqb_refl, IH.
Qed.

Lemma contains_here (needle hay : string) :
  startswith needle hay = true -> contains needle hay = true.
Proof.
  intros H. destruct hay; simpl in *; rewrite H; reflexivity.
Qed.

(** Python's [in] finds every occurrence. *)
Lemma contains_intro (before needle after : string) :
  contains needle (before ++ needle ++ after) = true.
Proof.
  induction before as [|x before IH]; simpl.
  - apply contains_here, startswith_append.
  - rewrite IH. apply orb_true_r.
Qed.

Lemma append_empty_r (s : string) : (s ++ "")%string = s.
Proof.
  induction s as [|c s IH]; simpl; [reflexivity | now rewrite IH].
Qed.

Lemma contains_intro_end (before needle : string) :
  contains needle (before ++ needle) = true.
Proof.
  pose proof (contains_intro before needle "") as H.
  now rewrite append_empty_r in H.
Qed.

Lemma rev_str_append (acc s : string) :
  rev_str acc s = (rev_str "" s ++ acc)%string.
Proof.
  revert acc; induction s as [|c s IH]; intros acc; simpl; [reflexivity |].
  rewrite (IH (String c acc)), (IH (String c "")), append_assoc. reflexivity.
Qed.

Lemma reverse_append (a b : string) :
  reverse (a ++ b) = (reverse b ++ reverse a)%string.
Proof.
  unfold reverse. induction a as [|c a IH]; simpl.
  - now rewrite append_empty_r.
  - rewrite (rev_str_append (String c "") (a ++ b)), IH.
    rewrite (rev_str_append (String c "") a), append_assoc. reflexivity.
Qed.

Lemma reverse_involutive (s : string) : reverse (reverse s) = s.
Proof.
  induction s as [|c s IH]; [reflexivity |].
  change (String c s) with (String c "" ++ s)%string at 1.
  rewrite reverse_append, reverse_append, IH. reflexivity.
Qed.

Lemma startswith_split (p s : string) :
  startswith p s = true -> exists r, s = (p ++ r)%string.
Proof.
  revert s; induction p as [|a p IH]; intros s H; simpl in *; [eauto |].
  destruct s as [|b s]; [discriminate |].
  apply andb_true_iff in H as [E H]. apply Ascii.eqb_eq in E as ->.
  destruct (IH s H) as [r ->]. eauto.
Qed.

Lemma endswith_split (p s : string) :
  endswith p s = true -> exists a, s = (a ++ p)%string.
Proof.
  unfold endswith. intros H. apply startswith_split in H as [r H].
  exists (reverse r).
  rewrite <- (reverse_involutive s), H, reverse_append, reverse_involutive.
  reflexivity.
Qed.

Lemma lstrip_by_suffix (f : ascii -> bool) (s : string) :
  exists a, s = (a ++ lstrip_by f s)%string.
Proof.
  induction s as [|c s [a IH]]; simpl; [exists ""; reflexivity |].
  destruct (f c); [| exists ""; reflexivity].
  exists (String c a). simpl. now rewrite <- IH.
Qed.

Lemma rstrip_by_prefix (f : ascii -> bool) (s : string) :
  exists b, s = (rstrip_by f s ++ b)%string.
Proof.
  unfold rstrip_by. destruct (lstrip_by_suffix f (reverse s)) as [a H].
  exists (reverse a).
  rewrite <- reverse_append, <- H, reverse_involutive. reflexivity.
Qed.

(** What [strip] leaves is a piece of the text. *)
Lemma strip_by_inside (f : ascii -> bool) (s : string) :
  exists a b, s = (a ++ strip_by f s ++ b)%string.
Proof.
  unfold strip_by. destruct (lstrip_by_suffix f s) as [a Ha].
  destruct (rstrip_by_prefix f (lstrip_by f s)) as [b Hb].
  exists a, b. rewrite <- Hb. exact Ha.
Qed.

Lemma endswith_strip_contains (p s : string) :
  endswith p (strip s) = true -> contains p s = true.
Proof.
  intros H. apply endswith_split in H as [c H].
  destruct (strip_by_inside isspace s) as (a & b & E).
  unfold strip in H. rewrite H in E. rewrite E.
  rewrite (append_assoc c p b), <- (append_assoc a c (p ++ b)).
  apply contains_intro.
Qed.

(** The last line of a text is the last line of what follows a line
    feed. *)
Lemma last_line_after_nl (a b : string) :
  last_line (a ++ nl ++ b) = last_line b.
Proof.
  unfold last_line. generalize EmptyString at 1 as cur.
  induction a as [|c a IH]; intros cur; simpl; [reflexivity |].
  destruct (Ascii.eqb c (ascii_of_nat 10)); apply IH.
Qed.


End TextFacts.

(* ================================================================== *)
(** * Facts about the order of the memory query *)
(* ================================================================== *)

Section OrderFacts.

Lemma lex_compare_antisym (a b : list Z) :
  lex_compare b a = CompOpp (lex_compare a b).
Proof.
  revert b; induction a as [|x a IH]; intros [|y b]; simpl; try reflexivity.
  rewrite (Z.compare_antisym x y).
  destruct (x ?= y)%Z; simpl; auto.
Qed.

Lemma lex_compare_not_Lt_trans (a b c : list Z) :
  lex_compare a b <> Lt -> lex_compare b c <> Lt -> lex_compare a c <> Lt.
Proof.
  revert b c; induction a as [|x a IH]; intros [|y b] [|z c]; simpl;
    try congruence.
  destruct (Z.compare_spec x y), (Z.compare_spec y z), (Z.compare_spec x z);
    subst; try lia; try congruence; eauto.
Qed.

Lemma msg_geb_total (a b : Message) :
  Sql.msg_geb a b = false -> Sql.msg_geb b a = true.
Proof.
  unfold Sql.msg_geb. rewrite (lex_compare_antisym (Sql.msg_key a) (Sql.msg_key b)).
  destruct (lex_compare (Sql.msg_key a) (Sql.msg_key b)); simpl; congruence.
Qed.

Lemma msg_geb_trans (a b c : Message) :
  Sql.msg_geb a b = true -> Sql.msg_geb b c = true -> Sql.msg_geb a c = true.
Proof.
  unfold Sql.msg_geb. intros Hab Hbc.
  pose proof (lex_compare_not_Lt_trans (Sql.msg_key a) (Sql.msg_key b) (Sql.msg_key c)) as H.
  destruct (lex_compare (Sql.msg_key a) (Sql.msg_key b)); try discriminate;
  destruct (lex_compare (Sql.msg_key b) (Sql.msg_key c)); try discriminate;
  destruct (lex_compare (Sql.msg_key a) (Sql.msg_key c)); try reflexivity;
  exfalso; apply H; congruence.
Qed.

(** A lower turn index sorts strictly after a higher one. *)
Lemma msg_geb_lower_turn (a b : Message) :
  (Message_turn_index a < Message_turn_index b)%Z -> Sql.msg_geb a b = false.
Proof.
  intros H. unfold Sql.msg_geb, Sql.msg_key. simpl.
  apply Z.compare_lt_iff in H. now rewrite H.
Qed.

Lemma insert_desc_In (x y : Message) (l : list Message) :
  In y (Sql.insert_desc x l) <-> y = x \/ In y l.
Proof.
  induction l as [|z l IH]; simpl.
  - intuition.
  - destruct (Sql.msg_geb x z); simpl; rewrite ?IH; intuition.
Qed.

Lemma order_by_desc_In (y : Message) (l : list Message) :
  In y (Sql.order_by_desc l) <-> In y l.
Proof.
  induction l as [|x l IH]; simpl; [tauto |].
  rewrite insert_desc_In, IH. intuition.
Qed.

Lemma insert_desc_sorted (x : Message) (l : list Message) :
  StronglySorted desc l -> StronglySorted desc (Sql.insert_desc x l).
Proof.
  induction 1 as [|z l Hs IH Hall]; simpl.
  - repeat constructor.
  - destruct (Sql.msg_geb x z) eqn:E.
    + constructor; [constructor; assumption |].
      constructor; [exact E |].
      rewrite Forall_forall in *. intros y Hy.
      apply (msg_geb_trans x z y); [exact E | apply Hall, Hy].
    + constructor; [exact IH |].
      rewrite Forall_forall in *. intros y Hy.
      apply insert_desc_In in Hy as [->|Hy].
      * apply msg_geb_total, E.
      * apply Hall, Hy.
Qed.

Lemma order_by_desc_sorted (l : list Message) :
  StronglySorted desc (Sql.order_by_desc l).
Proof.
  induction l as [|x l IH]; simpl; [constructor | now apply insert_desc_sorted].
Qed.


Lemma firstn_In {A} (n : nat) (l : list A) (x : A) :
  In x (firstn n l) -> In x l.
Proof.
  revert l; induction n as [|n IH]; intros [|y l]; simpl; try tauto.
  intros [->|H]; [now left | right; now apply IH].
Qed.

Lemma firstn_sorted {A} (R : A -> A -> Prop) (n : nat) (l : list A) :
  StronglySorted R l -> StronglySorted R (firstn n l).
Proof.
  intros H; revert n; induction H as [|x l Hs IH Hall]; intros [|n]; simpl;
    try constructor; auto.
  rewrite Forall_forall in *. intros y Hy. apply Hall.
  eapply firstn_In. exact Hy.
Qed.

Lemma limit_sorted {A} (R : A -> A -> Prop) (n : Z) (l : list A) :
  StronglySorted R l -> StronglySorted R (Sql.limit n l).
Proof.
  unfold Sql.limit. destruct (n <? 0)%Z; [auto | apply firstn_sorted].
Qed.

Lemma limit_In {A} (n : Z) (l : list A) (x : A) :
  In x (Sql.limit n l) -> In x l.
Proof.
  unfold Sql.limit. destruct (n <? 0)%Z; [auto | apply firstn_In].
Qed.

Lemma limit_length {A} (n : Z) (l : list A) :
  (0 <= n)%Z -> (Z.of_nat (List.length (Sql.limit n l)) <= n)%Z.
Proof.
  intros Hn. unfold Sql.limit.
  destruct (n <? 0)%Z eqn:E; [apply Z.ltb_lt in E; lia |].
  rewrite length_firstn. lia.
Qed.

(** Reversing a descending list gives an ascending one. *)
Lemma rev_sorted (l : list Message) :
  StronglySorted desc l -> StronglySorted chrono_le (rev l).
Proof.
  induction 1 as [|x l Hs IH Hall]; simpl; [constructor |].
  assert (G : forall a b, StronglySorted chrono_le a ->
              (forall y, In y a -> chrono_le y b) ->
              StronglySorted chrono_le (a ++ [b])).
  { intros a b Ha. induction Ha as [|z a Ha IHa Hz]; simpl; intros Hb.
    - repeat constructor.
    - constructor.
      + apply IHa. intros y Hy. apply Hb. now right.
      + rewrite Forall_forall in *. intros y Hy.
        apply in_app_or in Hy as [Hy|[<-|[]]]; [now apply Hz |].
        apply Hb. now left. }
  apply G; [exact IH |].
  rewrite Forall_forall in Hall. intros y Hy.
  apply Hall. now apply in_rev.
Qed.

(** A row whose turn index exceeds all others comes first. *)
Lemma order_by_desc_newest (old : list Message) (x : Message) :
  (forall y, In y old -> (Message_turn_index y < Message_turn_index x)%Z) ->
  Sql.order_by_desc (old ++ [x]) = x :: Sql.order_by_desc old.
Proof.
  induction old as [|y old IH]; intros H; simpl; [reflexivity |].
  rewrite IH by (intros z Hz; apply H; now right).
  simpl. rewrite msg_geb_lower_turn by (apply H; now left). reflexivity.
Qed.

Lemma sql_max_upper (l : list Z) (m : Z) :
  Sql.sql_max l = Some m -> forall z, In z l -> (z <= m)%Z.
Proof.
  revert m; induction l as [|x l IH]; simpl; intros m H z Hz; [contradiction |].
  destruct (Sql.sql_max l) as [y|] eqn:E.
  - injection H as <-. destruct Hz as [<-|Hz]; [lia |].
    specialize (IH y eq_refl z Hz). lia.
  - injection H as <-. destruct Hz as [<-|Hz]; [lia |].
    destruct l; [contradiction | simpl in E].
    destruct (Sql.sql_max l); discriminate.
Qed.

Lemma sql_max_None (l : list Z) : Sql.sql_max l = None -> l = [].
Proof.
  destruct l as [|x l]; simpl; [reflexivity |].
  destruct (Sql.sql_max l); discriminate.
Qed.

Lemma next_of_max_succ (o : option Z) :
  ChatService.next_of_max o = (1 + match o with Some m => m | None => 0 end)%Z.
Proof.
  unfold ChatService.next_of_max. destruct o as [m|]; [| reflexivity].
  destruct (Z.eqb_spec m 0); lia.
Qed.

Lemma where_session_app (sid : string) (a b : list Message) :
  Sql.where_session sid (a ++ b) = Sql.where_session sid a ++ Sql.where_session sid b.
Proof. apply filter_app. Qed.

Lemma where_session_In (sid : string) (l : list Message) (m : Message) :
  In m (Sql.where_session sid l) <-> In m l /\ Message_session_id m = sid.
Proof.
  unfold Sql.where_session. rewrite filter_In, String.eqb_eq. tauto.
Qed.

End OrderFacts.

(* ================================================================== *)
(** * Running the effects *)
(* ================================================================== *)

Section Effects.

Lemma bind_Ok_inv {A B} (m : M A) (k : A -> M B) env w b w' :
  bind m k env w = (Ok b, w') ->
  exists a w1, m env w = (Ok a, w1) /\ k a env w1 = (Ok b, w').
Proof.
  unfold bind. destruct (m env w) as [[a|e] w1]; [eauto | discriminate].
Qed.

Lemma get_memory_context_run (sid : string) env w :
  MemoryManager.get_memory_context sid env w =
  (Ok (if db_fails env (ticks w) then []
       else map to_ctx
              (rev (Sql.limit (max_exchanges env * 2)
                      (Sql.order_by_desc (Sql.where_session sid (messages w)))))),
   bump w).
Proof.
  unfold MemoryManager.get_memory_context, try_except, bind, ask, db_execute, ret.
  destruct (db_fails env (ticks w)); reflexivity.
Qed.

Lemma get_order_status_impl_step (oid : string) :
  one_step (Tools.get_order_status_impl oid).
Proof.
  intros env w.
  unfold Tools.get_order_status_impl, try_except, bind, db_execute, ret.
  destruct (db_fails env (ticks w)); [eauto |].
  destruct (scalar_one_or_none _) as [[o|]|e]; eauto.
Qed.

Lemma get_product_info_impl_step (name : string) :
  one_step (Tools.get_product_info_impl name).
Proof.
  intros env w.
  unfold Tools.get_product_info_impl, try_except, bind, db_execute, ret.
  destruct (db_fails env (ticks w)); [eauto |].
  destruct (filter _ (products w)); eauto.
Qed.

Lemma get_warranty_policy_impl_step : one_step Tools.get_warranty_policy_impl.
Proof.
  intros env w.
  unfold Tools.get_warranty_policy_impl, try_except, bind, db_execute, ret.
  destruct (db_fails env (ticks w)); [eauto |].
  destruct (scalar_one_or_none _) as [[o|]|e]; eauto.
Qed.

Lemma _generate_regular_response_run (user_message memory_text : string) env w :
  ChatChain._generate_regular_response user_message memory_text env w =
  (Ok match llm_ainvoke env (ticks w)
              [ SystemMessage
                  (Prompts.format_prompt_with_context user_message memory_text);
                HumanMessage user_message ] with
      | Ok content => content
      | Raise _ => Prompts.get_fallback_response
      end,
   bump w).
Proof.
  unfold ChatChain._generate_regular_response, try_except, llm_call, ret.
  destruct (llm_ainvoke env (ticks w) _); reflexivity.
Qed.

Lemma find_order_tool :
  ChatChain.find_tool "get_order_status" Tools.get_tools
  = Some Tools.create_order_status_tool.
Proof. reflexivity. Qed.

Lemma find_product_tool :
  ChatChain.find_tool "get_product_info" Tools.get_tools
  = Some Tools.create_product_info_tool.
Proof. reflexivity. Qed.

Lemma find_warranty_tool :
  ChatChain.find_tool "get_warranty_policy" Tools.get_tools
  = Some Tools.create_warranty_policy_tool.
Proof. reflexivity. Qed.

(** Without a tool call the turn is the generative path, whatever the
    tools are. *)
Lemma invoke_no_tool (user_message : string) (memory_context : list CtxEntry)
    (tools : list Tools.Tool) (sid : string) env w :
  no_tool_utterance user_message = true ->
  ChatChain.invoke user_message memory_context tools sid env w =
  (Ok (ChatChain.mkLlmResponse
         (generative_reply user_message memory_context env w) [] sid),
   bump w).
Proof.
  unfold no_tool_utterance, ChatChain.invoke, generative_reply, try_except, bind.
  intros H.
  destruct (ChatChain._should_call_order_tool user_message).
  - destruct (PyStr.truthy (ChatChain._extract_order_id user_message));
      [discriminate |].
    unfold ret at 1. cbv beta iota. unfold snd at 1. cbv beta iota.
    rewrite _generate_regular_response_run.
    unfold ret, fst. destruct (llm_ainvoke env (ticks w) _); reflexivity.
  - destruct (ChatChain._should_call_product_tool user_message).
    + destruct (PyStr.truthy (ChatChain._extract_product_name user_message));
        [discriminate |].
      unfold ret at 1. cbv beta iota. unfold snd at 1. cbv beta iota.
      rewrite _generate_regular_response_run.
      unfold ret, fst. destruct (llm_ainvoke env (ticks w) _); reflexivity.
    + destruct (ChatChain._should_call_warranty_tool user_message);
        [discriminate |].
      unfold ret at 1. cbv beta iota. unfold snd at 1. cbv beta iota.
      rewrite _generate_regular_response_run.
      unfold ret, fst. destruct (llm_ainvoke env (ticks w) _); reflexivity.
Qed.

(** With the three tools of [get_tools], [invoke] never raises, talks to
    the outside exactly once and reports the tool the routing names. *)
Lemma invoke_run (user_message : string) (memory_context : list CtxEntry)
    (sid : string) env w :
  exists reply,
    ChatChain.invoke user_message memory_context Tools.get_tools sid env w =
    (Ok (ChatChain.mkLlmResponse reply (route_tool_calls user_message) sid), bump w).
Proof.
  destruct (no_tool_utterance user_message) eqn:N.
  - rewrite invoke_no_tool by exact N. eexists. f_equal. f_equal. f_equal.
    unfold no_tool_utterance in N. unfold route_tool_calls.
    destruct (ChatChain._should_call_order_tool user_message).
    + destruct (PyStr.truthy _); [discriminate | reflexivity].
    + destruct (ChatChain._should_call_product_tool user_message).
      * destruct (PyStr.truthy _); [discriminate | reflexivity].
      * destruct (ChatChain._should_call_warranty_tool user_message);
          [discriminate | reflexivity].
  - unfold no_tool_utterance in N.
    unfold route_tool_calls, ChatChain.invoke, try_except, bind.
    destruct (ChatChain._should_call_order_tool user_message).
    + destruct (PyStr.truthy (ChatChain._extract_order_id user_message));
        [| discriminate].
      rewrite find_order_tool.
      destruct (get_order_status_impl_step
                  (ChatChain._extract_order_id user_message) env w) as [txt Htxt].
      unfold Tools.create_order_status_tool, Tools.tool_func. rewrite Htxt.
      eexists. reflexivity.
    + destruct (ChatChain._should_call_product_tool user_message).
      * destruct (PyStr.truthy (ChatChain._extract_product_name user_message));
          [| discriminate].
        rewrite find_product_tool.
        destruct (get_product_info_impl_step
                    (ChatChain._extract_product_name user_message) env w)
          as [txt Htxt].
        unfold Tools.create_product_info_tool, Tools.tool_func. rewrite Htxt.
        eexists. reflexivity.
      * destruct (ChatChain._should_call_warranty_tool user_message);
          [| discriminate].
        rewrite find_warranty_tool.
        destruct (get_warranty_policy_impl_step env w) as [txt Htxt].
        unfold Tools.create_warranty_policy_tool, Tools.tool_func. rewrite Htxt.
        eexists. reflexivity.
Qed.

End Effects.

(* ================================================================== *)
(** * One turn of [process_message] *)
(* ================================================================== *)

Section Turn.

Lemma _get_next_turn_index_Ok (sid : string) env w t w' :
  ChatService._get_next_turn_index sid env w = (Ok t, w') ->
  t = (1 + max_turn_or_zero sid (messages w))%Z /\ w' = bump w.
Proof.
  unfold ChatService._get_next_turn_index, bind, db_execute, ret.
  destruct (db_fails env (ticks w)); [discriminate |].
  intros H. injection H as <- <-. split; [| reflexivity].
  apply next_of_max_succ.
Qed.

Lemma _save_message_Ok (sid role content : string) (t : Z) env w m w' :
  ChatService._save_message sid role content t env w = (Ok m, w') ->
  m = mkMessage (uuid4 env (ticks w)) sid role content t (utcnow env (S (ticks w)))
  /\ messages w' = messages w ++ [m]
  /\ ticks w' = (4 + ticks w)%nat.
Proof.
  unfold ChatService._save_message, bind, uuid_uuid4, datetime_utcnow,
    db_add_commit, db_refresh, db_execute, bump. simpl.
  destruct (db_fails env (S (S (ticks w)))); simpl; [discriminate |].
  destruct (db_fails env (S (S (S (ticks w))))); [discriminate |].
  intros H. injection H as <- <-. simpl. auto.
Qed.

Lemma process_message_begin_Ok (sid txt : string) env w t mem w' :
  ChatService.process_message_begin sid txt env w = (Ok (t, mem), w') ->
  exists u w2,
    t = (1 + max_turn_or_zero sid (messages w))%Z
    /\ u = mkMessage (uuid4 env (S (ticks w))) sid "user" txt t
             (utcnow env (S (S (ticks w))))
    /\ messages w2 = messages w ++ [u]
    /\ ticks w2 = (5 + ticks w)%nat
    /\ MemoryManager.get_memory_context sid env w2 = (Ok mem, w')
    /\ w' = bump w2.
Proof.
  unfold ChatService.process_message_begin. intros H.
  apply bind_Ok_inv in H as (t0 & w1 & H1 & H).
  apply _get_next_turn_index_Ok in H1 as [-> ->].
  apply bind_Ok_inv in H as (u & w2 & H2 & H).
  apply _save_message_Ok in H2 as (Hu & Hm & Ht).
  apply bind_Ok_inv in H as (mem0 & w3 & H3 & H).
  unfold ret in H. injection H as <- <- <-.
  exists u, w2. repeat split; try assumption.
  rewrite get_memory_context_run in H3. now injection H3.
Qed.

(** A successful turn appends the user message and the assistant
    message, both at the turn index it returns. *)
Lemma process_message_Ok (sid txt : string) env w resp w' :
  ChatService.process_message sid txt env w = (Ok resp, w') ->
  resp_turn_index resp = (1 + max_turn_or_zero sid (messages w))%Z
  /\ resp_session_id resp = sid
  /\ exists u a,
       messages w' = messages w ++ [u; a]
       /\ Message_session_id u = sid /\ Message_session_id a = sid
       /\ Message_role u = "user" /\ Message_content u = txt
       /\ Message_role a = "assistant" /\ Message_content a = resp_message resp
       /\ Message_turn_index u = resp_turn_index resp
       /\ Message_turn_index a = resp_turn_index resp.
Proof.
  unfold ChatService.process_message, try_except. intros H.
  destruct (bind _ _ env w) as [[r|e] w0] eqn:B;
    [| unfold bind, db_rollback, ret, raise in H; discriminate].
  injection H as -> ->.
  apply bind_Ok_inv in B as ([t mem] & w1 & H1 & B).
  apply process_message_begin_Ok in H1 as (u & w2 & -> & Hu & Hm2 & _ & _ & ->).
  apply bind_Ok_inv in B as (llm & w3 & H3 & B).
  destruct (invoke_run txt mem sid env (bump w2)) as [reply Hr].
  simpl fst in H3. simpl snd in H3. rewrite Hr in H3. injection H3 as <- <-.
  apply bind_Ok_inv in B as (a & w4 & H4 & B).
  apply _save_message_Ok in H4 as (Ha & Hm4 & _).
  unfold MemoryManager.update_memory, bind, ret in B. injection B as <- <-.
  simpl. split; [reflexivity |]. split; [reflexivity |].
  exists u, a. rewrite Hm4. simpl. rewrite Hm2, <- app_assoc. simpl.
  rewrite Ha, Hu. simpl. repeat split; reflexivity.
Qed.

Lemma sql_max_append_new (l : list Z) (t : Z) :
  (forall z, In z l -> (z < t)%Z) -> Sql.sql_max (l ++ [t; t]) = Some t.
Proof.
  induction l as [|x l IH]; intros H; simpl.
  - now rewrite Z.max_id.
  - rewrite IH by (intros z Hz; apply H; now right).
    f_equal. apply Z.max_r. specialize (H x (or_introl eq_refl)). lia.
Qed.

Lemma max_turn_or_zero_upper (sid : string) (log : list Message) (m : Message) :
  In m (Sql.where_session sid log) ->
  (Message_turn_index m <= max_turn_or_zero sid log)%Z.
Proof.
  unfold max_turn_or_zero. intros H.
  destruct (Sql.sql_max _) as [x|] eqn:E.
  - apply (sql_max_upper _ _ E). now apply in_map.
  - apply sql_max_None in E. apply (in_map Message_turn_index) in H.
    rewrite E in H. contradiction.
Qed.

(** After a turn the highest index of the session is the one just used;
    the other sessions keep theirs. *)
Lemma max_turn_after_turn (sid s : string) (log : list Message) (u a : Message) :
  Message_session_id u = s -> Message_session_id a = s ->
  Message_turn_index u = (1 + max_turn_or_zero s log)%Z ->
  Message_turn_index a = (1 + max_turn_or_zero s log)%Z ->
  max_turn_or_zero sid (log ++ [u; a]) =
  if String.eqb s sid then (1 + max_turn_or_zero sid log)%Z
  else max_turn_or_zero sid log.
Proof.
  intros Hu Ha Tu Ta. unfold max_turn_or_zero at 1.
  rewrite where_session_app. unfold Sql.where_session at 2. simpl.
  rewrite Hu, Ha. destruct (String.eqb_spec s sid) as [->|Hne].
  - rewrite map_app. simpl. rewrite Tu, Ta.
    rewrite sql_max_append_new; [reflexivity |].
    intros z Hz. apply in_map_iff in Hz as (m & <- & Hm).
    apply max_turn_or_zero_upper in Hm. lia.
  - rewrite app_nil_r. reflexivity.
Qed.

Lemma sequential_use_turns (requests : list (string * string)) (sid : string) :
  forall env w responses w',
    sequential_use requests env w = (Ok responses, w') ->
    turn_indices_of sid responses =
    count_up (max_turn_or_zero sid (messages w))
      (List.length (filter (fun r => String.eqb (fst r) sid) requests)).
Proof.
  induction requests as [|[s txt] requests IH]; intros env w responses w' H.
  - simpl in H. unfold ret in H. injection H as <- <-. reflexivity.
  - simpl in H.
    apply bind_Ok_inv in H as (r & w1 & H1 & H).
    apply bind_Ok_inv in H as (rs & w2 & H2 & H).
    unfold ret in H. injection H as <- <-.
    apply process_message_Ok in H1
      as (Ht & Hs & u & a & Hm & Hu & Ha & _ & _ & _ & _ & Tu & Ta).
    specialize (IH env w1 rs w2 H2). rewrite Hm in IH.
    rewrite Ht in Tu, Ta.
    rewrite (max_turn_after_turn sid s (messages w) u a Hu Ha Tu Ta) in IH.
    unfold turn_indices_of in *. simpl. rewrite Hs.
    destruct (String.eqb_spec s sid) as [->|Hne]; simpl.
    + rewrite Ht, (Z.add_comm 1) in *. f_equal. exact IH.
    + exact IH.
Qed.

End Turn.

(* ================================================================== *)
(** * The memory excerpt *)
(* ================================================================== *)

Section MemoryExcerpt.

Lemma limit_cons {A} (n : Z) (x : A) (l : list A) :
  (Sql.limit n (x :: l) = [] /\ n = 0%Z)
  \/ exists l', Sql.limit n (x :: l) = x :: l'.
Proof.
  unfold Sql.limit. destruct (n <? 0)%Z eqn:E; [right; eauto |].
  apply Z.ltb_ge in E.
  destruct (Z.to_nat n) as [|k] eqn:K; simpl; [left | right; eauto].
  split; [reflexivity | lia].
Qed.

(** The rows read by the memory query right after the user message [u]
    of the running turn was stored: [u] is the newest of them. *)
Lemma memory_rows_after_save (sid : string) (log : list Message) (u : Message) (n : Z) :
  Message_session_id u = sid ->
  Message_turn_index u = (1 + max_turn_or_zero sid log)%Z ->
  (rev (Sql.limit n (Sql.order_by_desc (Sql.where_session sid (log ++ [u])))) = []
   /\ n = 0%Z)
  \/ exists earlier,
       rev (Sql.limit n (Sql.order_by_desc (Sql.where_session sid (log ++ [u]))))
       = earlier ++ [u].
Proof.
  intros Hs Ht.
  rewrite where_session_app. unfold Sql.where_session at 2. simpl.
  rewrite Hs, String.eqb_refl.
  rewrite order_by_desc_newest.
  - destruct (limit_cons n u (Sql.order_by_desc (Sql.where_session sid log)))
      as [[-> ->]|[l' ->]]; [left; auto | right].
    simpl. eauto.
  - intros y Hy. apply max_turn_or_zero_upper in Hy. lia.
Qed.

(** C1 - statement of the claim: the memory excerpt obtained by
    [process_message] reflects the log as it was before the user message
    of the running turn was stored.  The code stores the user message
    first and reads the excerpt afterwards: whenever the excerpt is not
    empty, its last entry is the user message of the running turn, and it
    is not empty as soon as the memory query succeeds and the window is
    not zero. *)
Theorem memory_excerpt_ends_with_current_message
    (sid txt : string) env w t mem w' :
  ChatService.process_message_begin sid txt env w = (Ok (t, mem), w') ->
  (mem = [] \/ exists earlier, mem = earlier ++ [mkCtx "user" txt])
  /\ (db_fails env (5 + ticks w) = false -> max_exchanges env <> 0%Z ->
      exists earlier, mem = earlier ++ [mkCtx "user" txt]).
Proof.
  intros H.
  apply process_message_begin_Ok in H as (u & w2 & Ht & Hu & Hm & Hk & Hmem & _).
  rewrite get_memory_context_run in Hmem. injection Hmem as Hmem.
  rewrite Hm, Hk in Hmem.
  assert (Hs : Message_session_id u = sid) by (rewrite Hu; reflexivity).
  assert (Hi : Message_turn_index u = (1 + max_turn_or_zero sid (messages w))%Z)
    by (rewrite Hu; simpl; exact Ht).
  assert (Hc : to_ctx u = mkCtx "user" txt) by (rewrite Hu; reflexivity).
  destruct (memory_rows_after_save sid (messages w) u (max_exchanges env * 2) Hs Hi)
    as [[E Z0]|[earlier E]].
  - split.
    + left. destruct (db_fails env (5 + ticks w)); [now symmetry |].
      rewrite E in Hmem. now symmetry.
    + intros _ Hne. lia.
  - assert (G : db_fails env (5 + ticks w) = false ->
                exists earlier0, mem = earlier0 ++ [mkCtx "user" txt]).
    { intros F. rewrite F, E, map_app in Hmem. simpl in Hmem. rewrite Hc in Hmem.
      eexists. symmetry. exact Hmem. }
    split; [| intros F _; exact (G F)].
    destruct (db_fails env (5 + ticks w)) eqn:F; [left; now symmetry | right; auto].
Qed.

(** C5 - for every session and every message log, the memory excerpt
    has at most [2 * max_exchanges] entries and is in chronological
    order, oldest first: it is the image of rows of that session that
    ascend in (turn index, creation time). *)
Theorem memory_excerpt_bounded_and_chronological (sid : string) env w :
  (0 <= max_exchanges env)%Z ->
  exists ctx msgs,
    MemoryManager.get_memory_context sid env w = (Ok ctx, bump w)
    /\ (Z.of_nat (List.length ctx) <= 2 * max_exchanges env)%Z
    /\ ctx = map to_ctx msgs
    /\ StronglySorted chrono_le msgs
    /\ forall m, In m msgs -> In m (messages w) /\ Message_session_id m = sid.
Proof.
  intros Hmax. rewrite get_memory_context_run.
  destruct (db_fails env (ticks w)).
  - exists [], []. split; [reflexivity |]. split; [simpl List.length; lia |].
    split; [reflexivity |]. split; [constructor |]. intros m [].
  - eexists. eexists. split; [reflexivity |].
    split; [| split; [reflexivity | split]].
    + rewrite length_map, length_rev.
      pose proof (limit_length (max_exchanges env * 2)
                    (Sql.order_by_desc (Sql.where_session sid (messages w)))).
      lia.
    + apply rev_sorted, limit_sorted, order_by_desc_sorted.
    + intros m Hm. rewrite <- in_rev in Hm. apply limit_In in Hm.
      rewrite order_by_desc_In in Hm. now apply where_session_In in Hm.
Qed.

(** C10 - [get_memory_context] never raises: it always returns a list,
    the empty one when its query fails; a turn whose read of the turn
    index and whose two writes succeed then completes, whether or not the
    memory query failed. *)
Theorem get_memory_context_never_raises (sid : string) env w :
  (exists ctx,
     MemoryManager.get_memory_context sid env w = (Ok ctx, bump w)
     /\ (db_fails env (ticks w) = true -> ctx = []))
  /\ forall txt,
       (forall n, In n [0; 3; 4; 9; 10]%nat -> db_fails env (n + ticks w) = false) ->
       exists resp w', ChatService.process_message sid txt env w = (Ok resp, w').
Proof.
  split.
  - rewrite get_memory_context_run. eexists. split; [reflexivity |].
    intros ->. reflexivity.
  - intros txt F.
    pose proof (F 0%nat) as F0. pose proof (F 3%nat) as F3.
    pose proof (F 4%nat) as F4. pose proof (F 9%nat) as F9.
    pose proof (F 10%nat) as F10. simpl in F0, F3, F4, F9, F10.
    unfold ChatService.process_message, ChatService.process_message_begin,
      try_except, bind at 1 2 3.
    unfold ChatService._get_next_turn_index, bind at 1, db_execute, ret at 1.
    rewrite F0 by tauto.
    unfold ChatService._save_message at 1, bind at 1 2 3 4, uuid_uuid4 at 1,
      datetime_utcnow at 1, db_add_commit at 1, db_refresh at 1, db_execute at 1.
    simpl ticks. rewrite F3 by tauto. simpl ticks. rewrite F4 by tauto.
    unfold bind at 1. rewrite get_memory_context_run.
    unfold ret at 1, bind at 1. simpl fst. simpl snd.
    match goal with
    | |- context [ChatChain.invoke ?a ?b Tools.get_tools ?c env ?d] =>
        destruct (invoke_run a b c env d) as [reply ->]
    end.
    unfold ChatService._save_message at 1, bind at 1 2 3 4 5, uuid_uuid4 at 1,
      datetime_utcnow at 1, db_add_commit at 1, db_refresh at 1, db_execute at 1.
    simpl ticks. rewrite F9 by tauto. simpl ticks. rewrite F10 by tauto.
    unfold MemoryManager.update_memory, ret. eauto.
Qed.

End MemoryExcerpt.

(* ================================================================== *)
(** * Turn indices *)
(* ================================================================== *)

Section TurnIndices.

Lemma count_up_seq (k n : nat) :
  count_up (Z.of_nat k) n = map Z.of_nat (seq (S k) n).
Proof.
  revert k; induction n as [|n IH]; intros k; simpl; [reflexivity |].
  replace (Z.of_nat k + 1)%Z with (Z.of_nat (S k)) by lia.
  rewrite IH. reflexivity.
Qed.

(** C2 - the turn index given by [process_message] is 1 + the highest
    turn index stored for the session (0 when it has no message); the
    user message and the assistant message are stored with that index;
    so in sequential use the indices of a session go up by exactly 1 per
    call, and start at 1 for a session without messages. *)
Theorem turn_index_is_next_and_shared (sid : string) env :
  (forall txt w resp w',
      ChatService.process_message sid txt env w = (Ok resp, w') ->
      resp_turn_index resp = (1 + max_turn_or_zero sid (messages w))%Z
      /\ exists u a,
           messages w' = messages w ++ [u; a]
           /\ Message_session_id u = sid /\ Message_session_id a = sid
           /\ Message_role u = "user" /\ Message_content u = txt
           /\ Message_role a = "assistant"
           /\ Message_content a = resp_message resp
           /\ Message_turn_index u = resp_turn_index resp
           /\ Message_turn_index a = resp_turn_index resp)
  /\ (forall requests w responses w',
        sequential_use requests env w = (Ok responses, w') ->
        let calls :=
          List.length (filter (fun r => String.eqb (fst r) sid) requests) in
        turn_indices_of sid responses
        = count_up (max_turn_or_zero sid (messages w)) calls
        /\ (Sql.where_session sid (messages w) = [] ->
            turn_indices_of sid responses = map Z.of_nat (seq 1 calls))).
Proof.
  split.
  - intros txt w resp w' H.
    apply process_message_Ok in H as (Ht & _ & H). auto.
  - intros requests w responses w' H calls.
    pose proof (sequential_use_turns requests sid env w responses w' H) as T.
    split; [exact T |].
    intros E. rewrite T. unfold max_turn_or_zero. rewrite E. simpl Sql.sql_max.
    apply (count_up_seq 0).
Qed.

End TurnIndices.

(* ================================================================== *)
(** * Routing and synthesis *)
(* ================================================================== *)

Section Routing.

Lemma find_filter_same {A} (p : A -> bool) (l : list A) :
  find p (filter p l) = find p l.
Proof.
  induction l as [|x l IH]; simpl; [reflexivity |].
  destruct (p x) eqn:E; simpl; [now rewrite E | exact IH].
Qed.

Lemma route_tool_calls_cases (user_message : string) :
  route_tool_calls user_message = []
  \/ route_tool_calls user_message = ["get_order_status"]
  \/ route_tool_calls user_message = ["get_product_info"]
  \/ route_tool_calls user_message = ["get_warranty_policy"].
Proof.
  unfold route_tool_calls.
  destruct (ChatChain._should_call_order_tool user_message);
    [destruct (PyStr.truthy _); auto |].
  destruct (ChatChain._should_call_product_tool user_message);
    [destruct (PyStr.truthy _); auto |].
  destruct (ChatChain._should_call_warranty_tool user_message); auto 6.
Qed.

(** When the order intent matches, only the order tool of the list can
    matter. *)
Lemma invoke_order_intent_ignores_other_tools
    (user_message : string) (memory_context : list CtxEntry)
    (tools : list Tools.Tool) (sid : string) env w :
  ChatChain._should_call_order_tool user_message = true ->
  ChatChain.invoke user_message memory_context tools sid env w
  = ChatChain.invoke user_message memory_context (order_tools_only tools) sid env w.
Proof.
  intros H. unfold ChatChain.invoke, ChatChain.find_tool, order_tools_only.
  rewrite H.
  rewrite (find_filter_same
             (fun t => String.eqb (Tools.tool_name t) "get_order_status") tools).
  reflexivity.
Qed.

(** C7 - when the order intent matches and no order id can be
    extracted, no tool is called, whatever the tools are: the turn is the
    generative path and [tool_calls] is empty. *)
Theorem extraction_miss_falls_through
    (user_message : string) (memory_context : list CtxEntry)
    (tools : list Tools.Tool) (sid : string) env w :
  ChatChain._should_call_order_tool user_message = true ->
  ChatChain._extract_order_id user_message = "" ->
  ChatChain.invoke user_message memory_context tools sid env w
  = (Ok (ChatChain.mkLlmResponse
           (generative_reply user_message memory_context env w) [] sid),
     bump w).
Proof.
  intros Ho He. apply invoke_no_tool.
  unfold no_tool_utterance. now rewrite Ho, He.
Qed.

Lemma ensure_summary_fallback :
  ChatChain.ensure_summary Prompts.get_fallback_response
  = Prompts.get_fallback_response.
Proof. vm_compute. reflexivity. Qed.

(** C8 - when the backend call raises on an utterance that leads to no
    tool, [invoke] still returns: the reply is the fixed fallback message
    and [tool_calls] is empty. *)
Theorem backend_failure_gives_fallback
    (user_message : string) (memory_context : list CtxEntry)
    (tools : list Tools.Tool) (sid : string) env w (e : Exn) :
  no_tool_utterance user_message = true ->
  llm_ainvoke env (ticks w)
    [ SystemMessage
        (Prompts.format_prompt_with_context user_message
           (MemoryManager.format_memory_for_prompt memory_context));
      HumanMessage user_message ] = Raise e ->
  ChatChain.invoke user_message memory_context tools sid env w
  = (Ok (ChatChain.mkLlmResponse Prompts.FALLBACK_PROMPT [] sid), bump w).
Proof.
  intros N F. rewrite invoke_no_tool by exact N.
  unfold generative_reply. rewrite F, ensure_summary_fallback. reflexivity.
Qed.

Lemma ensure_summary_keeps_marked_text (text : string) :
  PyStr.contains "Ringkas:" text = true -> ChatChain.ensure_summary text = text.
Proof.
  intros H. unfold ChatChain.ensure_summary. rewrite H.
  destruct (negb _); reflexivity.
Qed.

(** When the marker is nowhere in the text the generic summary line is
    appended, and the reply then ends with a summary line. *)
Lemma ensure_summary_appends (text : string) :
  PyStr.contains "Ringkas:" text = false ->
  ChatChain.ensure_summary text
  = (text ++ PyStr.nl ++ PyStr.nl
       ++ "Ringkas: Sudah memberikan jawaban sesuai pertanyaan Anda.")%string
  /\ ends_with_summary_line (ChatChain.ensure_summary text) = true.
Proof.
  intros H1.
  assert (H2 : PyStr.endswith "Ringkas:" (PyStr.strip text) = false).
  { destruct (PyStr.endswith "Ringkas:" (PyStr.strip text)) eqn:E; [| reflexivity].
    apply endswith_strip_contains in E. congruence. }
  assert (E : ChatChain.ensure_summary text
              = (text ++ PyStr.nl ++ PyStr.nl
                   ++ "Ringkas: Sudah memberikan jawaban sesuai pertanyaan Anda.")%string).
  { unfold ChatChain.ensure_summary. now rewrite H1, H2. }
  split; [exact E |].
  rewrite E. unfold ends_with_summary_line.
  rewrite last_line_after_nl. reflexivity.
Qed.

(** C4 - statement of the claim: every reply ends with a line that
    begins with the marker.  The code only looks for the marker anywhere
    in the text: a backend text that carries the marker is returned as it
    is, so the reply ends with a summary line only if that text does. *)
Theorem marked_text_is_returned_unchanged
    (user_message : string) (memory_context : list CtxEntry)
    (tools : list Tools.Tool) (sid : string) env w (content : string) :
  no_tool_utterance user_message = true ->
  llm_ainvoke env (ticks w)
    [ SystemMessage
        (Prompts.format_prompt_with_context user_message
           (MemoryManager.format_memory_for_prompt memory_context));
      HumanMessage user_message ] = Ok content ->
  PyStr.contains "Ringkas:" content = true ->
  exists resp,
    ChatChain.invoke user_message memory_context tools sid env w = (Ok resp, bump w)
    /\ ChatChain.message resp = content
    /\ ends_with_summary_line (ChatChain.message resp)
       = ends_with_summary_line content.
Proof.
  intros N F C. rewrite invoke_no_tool by exact N.
  eexists. split; [reflexivity |].
  unfold generative_reply. rewrite F, ensure_summary_keeps_marked_text by exact C.
  simpl. split; reflexivity.
Qed.

End Routing.

(* ================================================================== *)
(** * The lookups *)
(* ================================================================== *)

Section Lookups.
Import PyStr.

Lemma startswith_append_r (x s b : string) :
  startswith x s = true -> startswith x (s ++ b) = true.
Proof.
  revert s; induction x as [|c x IH]; intros s H; simpl in *; [reflexivity |].
  destruct s as [|d s]; simpl in *; [discriminate |].
  apply andb_true_iff in H as [H1 H2]. now rewrite H1, IH.
Qed.

Lemma contains_append_r (x s b : string) :
  contains x s = true -> contains x (s ++ b) = true.
Proof.
  induction s as [|c s IH]; simpl; intros H.
  - rewrite orb_false_r in H. destruct x; [| discriminate].
    destruct b; reflexivity.
  - apply orb_true_iff in H as [H|H].
    + change (String c (s ++ b)) with (String c s ++ b)%string.
      now rewrite startswith_append_r.
    + rewrite IH by exact H. apply orb_true_r.
Qed.

Lemma contains_append_l (x a s : string) :
  contains x s = true -> contains x (a ++ s) = true.
Proof.
  intros H. induction a as [|c a IH]; simpl; [exact H |].
  rewrite IH. apply orb_true_r.
Qed.

(** A text found in one of the parts is found in their join. *)
Lemma contains_join (x sep : string) (parts : list string) (p : string) :
  In p parts -> contains x p = true -> contains x (join sep parts) = true.
Proof.
  intros Hin Hp. induction parts as [|q parts IH]; [contradiction |].
  destruct Hin as [->|Hin].
  - destruct parts as [|r parts]; simpl; [exact Hp |].
    now apply contains_append_r.
  - destruct parts as [|r parts]; [contradiction |].
    change (join sep (q :: r :: parts))
      with (q ++ sep ++ join sep (r :: parts))%string.
    apply contains_append_l, contains_append_l, IH, Hin.
Qed.

Lemma dict_get_status_term (status : string) :
  Tools.dict_get Tools.status_messages status status = status_term status.
Proof.
  unfold Tools.status_messages, status_term. cbn [Tools.dict_get].
  rewrite !(String.eqb_sym _ status).
  repeat (destruct (String.eqb status _); [reflexivity |]). reflexivity.
Qed.

(** The code composes the message the specification describes. *)
Lemma order_found_message_spec (order_id : string) (order : Order) :
  Tools.order_found_message order_id order = order_message_spec order_id order.
Proof.
  unfold Tools.order_found_message, order_message_spec,
    Tools.order_response_parts, carrier_part, eta_part, Tools.str_in.
  rewrite dict_get_status_term. simpl existsb. rewrite orb_false_r.
  destruct (Order_carrier order) as [c|], (Order_tracking_number order) as [t|];
    simpl truthy_opt; simpl Tools.opt_str;
    rewrite ?andb_false_r; simpl andb;
    try destruct (truthy c && truthy t);
    destruct (Order_eta_date order) as [eta|];
    try destruct (String.eqb (Order_status order) "confirmed"
                  || String.eqb (Order_status order) "shipped");
    reflexivity.
Qed.

Lemma get_order_status_impl_found (order_id : string) (order : Order) env w :
  db_fails env (ticks w) = false ->
  filter (fun o => String.eqb (Order_id o) order_id) (orders w) = [order] ->
  Tools.get_order_status_impl order_id env w
  = (Ok (order_message_spec order_id order), bump w).
Proof.
  intros F H.
  unfold Tools.get_order_status_impl, try_except, bind, db_execute, ret.
  rewrite F, H. simpl. now rewrite order_found_message_spec.
Qed.

Lemma order_message_contains (order_id : string) (order : Order) (x part : string) :
  In part (carrier_part order ++ eta_part order) ->
  contains x part = true ->
  contains x (order_message_spec order_id order) = true.
Proof.
  intros Hin Hx. unfold order_message_spec.
  apply contains_append_r, (contains_join x ". " _ part); [| exact Hx].
  apply in_or_app. right. rewrite app_assoc. apply in_or_app. now left.
Qed.

(** C6 - for an order the lookup finds, the message is the composition
    the specification describes: the fixed phrase for the five known
    status codes and the raw code otherwise, the carrier and tracking
    number only when both are present, the ETA only when there is one and
    the status is confirmed or shipped.  In particular a shipped order
    with carrier and tracking number shows both and the ETA date if set,
    and a delivered order never has the ETA part. *)
Theorem order_status_message_composition
    (order_id : string) (order : Order) env w :
  db_fails env (ticks w) = false ->
  filter (fun o => String.eqb (Order_id o) order_id) (orders w) = [order] ->
  let reply := order_message_spec order_id order in
  Tools.get_order_status_impl order_id env w = (Ok reply, bump w)
  /\ (forall carrier tracking,
        Order_status order = "shipped" ->
        Order_carrier order = Some carrier -> truthy carrier = true ->
        Order_tracking_number order = Some tracking -> truthy tracking = true ->
        contains carrier reply = true
        /\ contains tracking reply = true
        /\ forall eta, Order_eta_date order = Some eta ->
                       contains (strftime_date eta) reply = true)
  /\ (Order_status order = "delivered" ->
      eta_part order = []
      /\ reply = order_message_spec order_id (with_eta order None)).
Proof.
  intros F H reply. split; [now apply get_order_status_impl_found |]. split.
  - intros carrier tracking Hs Hc Tc Ht Tt.
    assert (Hpart : carrier_part order
                    = [("via " ++ carrier ++ " dengan nomor resi " ++ tracking)%string]).
    { unfold carrier_part. now rewrite Hc, Ht, Tc, Tt. }
    split; [| split].
    + apply (order_message_contains order_id order carrier
               ("via " ++ carrier ++ " dengan nomor resi " ++ tracking)).
      * rewrite Hpart. now left.
      * apply (contains_intro "via " carrier).
    + apply (order_message_contains order_id order tracking
               ("via " ++ carrier ++ " dengan nomor resi " ++ tracking)).
      * rewrite Hpart. now left.
      * apply contains_append_l, contains_append_l, contains_intro_end.
    + intros eta He.
      apply (order_message_contains order_id order (strftime_date eta)
               ("dengan estimasi tiba " ++ strftime_date eta)).
      * rewrite Hpart. unfold eta_part. rewrite He, Hs. simpl. auto.
      * apply contains_intro_end.
  - intros Hs.
    assert (E : eta_part order = []).
    { unfold eta_part. rewrite Hs. destruct (Order_eta_date order); reflexivity. }
    split; [exact E |].
    unfold reply, order_message_spec. rewrite E. reflexivity.
Qed.

Lemma get_warranty_policy_impl_rows (rows : list Policy) env w :
  db_fails env (ticks w) = false ->
  filter (fun p => String.eqb (Policy_type p) "warranty") (policies w) = rows ->
  Tools.get_warranty_policy_impl env w
  = (Ok match rows with
        | [] => Tools.default_warranty_policy
        | [p] => Policy_content_markdown p
        | _ :: _ :: _ => Tools.warranty_error_message
        end,
     bump w).
Proof.
  intros F H.
  unfold Tools.get_warranty_policy_impl, try_except, bind, db_execute, ret.
  rewrite F, H. destruct rows as [|p [|q rows]]; reflexivity.
Qed.

Lemma default_warranty_reply_summary :
  ChatChain.ensure_summary
    (ChatChain.add_summary Tools.default_warranty_policy
       "Ringkas: Prosedur klaim garansi telah dijelaskan lengkap.")
  = default_warranty_reply
  /\ ends_with_summary_line default_warranty_reply = true.
Proof. split; vm_compute; reflexivity. Qed.

(** C9, as amended - on a warranty utterance, when the lookup succeeds
    and no policy of type warranty is stored, the tool returns the fixed
    five-step default text and the reply of the turn ends with a summary
    line; when exactly one such policy is stored, its content is returned
    as it is. *)
Theorem warranty_policy_default_or_single_record env w :
  db_fails env (ticks w) = false ->
  (filter (fun p => String.eqb (Policy_type p) "warranty") (policies w) = [] ->
   Tools.get_warranty_policy_impl env w
   = (Ok Tools.default_warranty_policy, bump w)
   /\ forall user_message memory_context sid,
        warranty_utterance user_message = true ->
        ChatChain.invoke user_message memory_context Tools.get_tools sid env w
        = (Ok (ChatChain.mkLlmResponse default_warranty_reply
                 ["get_warranty_policy"] sid),
           bump w)
        /\ ends_with_summary_line default_warranty_reply = true)
  /\ (forall p,
        filter (fun p => String.eqb (Policy_type p) "warranty") (policies w) = [p] ->
        Tools.get_warranty_policy_impl env w
        = (Ok (Policy_content_markdown p), bump w)).
Proof.
  intros F. split.
  - intros H.
    pose proof (get_warranty_policy_impl_rows [] env w F H) as R.
    split; [exact R |].
    intros user_message memory_context sid U.
    split; [| apply default_warranty_reply_summary].
    unfold warranty_utterance in U.
    apply andb_true_iff in U as [U Uw]. apply andb_true_iff in U as [Uo Up].
    apply negb_true_iff in Uo, Up.
    unfold ChatChain.invoke, try_except, bind.
    rewrite Uo, Up, Uw, find_warranty_tool.
    unfold Tools.create_warranty_policy_tool, Tools.tool_func. rewrite R.
    reflexivity.
  - intros p H. exact (get_warranty_policy_impl_rows [p] env w F H).
Qed.

End Lookups.

(* ================================================================== *)
(** * The theorems at concrete inputs *)
(* ================================================================== *)

Section Instances.
Import Sample.

(** First turn of a session on an empty log: the excerpt already holds
    the utterance being processed. *)
Lemma memory_excerpt_ends_with_current_message_witness :
  ChatService.process_message_begin "s1" "halo" env_ok empty_world
  = (Ok (1%Z, [mkCtx "user" "halo"]),
     snd (ChatService.process_message_begin "s1" "halo" env_ok empty_world))
  /\ exists earlier, [mkCtx "user" "halo"] = earlier ++ [mkCtx "user" "halo"].
Proof.
  assert (H : ChatService.process_message_begin "s1" "halo" env_ok empty_world
              = (Ok (1%Z, [mkCtx "user" "halo"]),
                 snd (ChatService.process_message_begin "s1" "halo" env_ok
                        empty_world)))
    by (vm_compute; reflexivity).
  split; [exact H |].
  apply (proj2 (memory_excerpt_ends_with_current_message
                  "s1" "halo" env_ok empty_world _ _ _ H));
    [reflexivity | discriminate].
Defined.

Lemma turn_index_is_next_and_shared_witness :
  exists responses w',
    sequential_use requests env_ok shop_world = (Ok responses, w')
    /\ turn_indices_of "s1" responses = [1; 2]%Z.
Proof.
  set (run := sequential_use requests env_ok shop_world).
  assert (H : run = (Ok (ok_or [] (fst run)), snd run))
    by (vm_compute; reflexivity).
  exists (ok_or [] (fst run)), (snd run). split; [exact H |].
  exact (proj1 (proj2 (turn_index_is_next_and_shared "s1" env_ok)
                  requests shop_world _ _ H)).
Defined.

Lemma marked_text_is_returned_unchanged_witness :
  exists resp,
    ChatChain.invoke "halo" [] Tools.get_tools "s1" env_marker_inside empty_world
    = (Ok resp, bump empty_world)
    /\ ChatChain.message resp = ("Ringkas: ok" ++ PyStr.nl ++ "Terima kasih")%string
    /\ ends_with_summary_line (ChatChain.message resp) = false.
Proof.
  destruct (marked_text_is_returned_unchanged
              "halo" [] Tools.get_tools "s1" env_marker_inside empty_world
              ("Ringkas: ok" ++ PyStr.nl ++ "Terima kasih")%string
              eq_refl eq_refl eq_refl)
    as (resp & H & M & E).
  exists resp. split; [exact H |]. split; [exact M |].
  rewrite E. reflexivity.
Defined.

Lemma memory_excerpt_bounded_and_chronological_witness :
  exists ctx,
    MemoryManager.get_memory_context "s1" (env_with (Ok "Baik.") 1) history_world
    = (Ok ctx, bump history_world)
    /\ (Z.of_nat (List.length ctx) <= 2)%Z.
Proof.
  destruct (memory_excerpt_bounded_and_chronological
              "s1" (env_with (Ok "Baik.") 1) history_world)
    as (ctx & msgs & H & L & _).
  - simpl. lia.
  - exists ctx. split; [exact H | exact L].
Defined.

Lemma order_status_message_composition_witness :
  Tools.get_order_status_impl "ORD123" env_ok shop_world
  = (Ok "Pesanan ORD123 sedang dalam pengiriman. via JNE dengan nomor resi JNE789. dengan estimasi tiba 18 September 2025. Terakhir diupdate: 16 September 2025 pukul 14:30.",
     bump shop_world)
  /\ PyStr.contains "JNE789"
       (order_message_spec "ORD123" order_shipped) = true.
Proof.
  destruct (order_status_message_composition
              "ORD123" order_shipped env_ok shop_world eq_refl eq_refl)
    as (H & C & _).
  split; [exact H |].
  exact (proj1 (proj2 (C "JNE" "JNE789" eq_refl eq_refl eq_refl eq_refl eq_refl))).
Defined.

Lemma extraction_miss_falls_through_witness :
  ChatChain.invoke "status pesanan saya" [] Tools.get_tools "s1" env_ok empty_world
  = (Ok (ChatChain.mkLlmResponse "Baik. Ringkas: baik." [] "s1"), bump empty_world).
Proof.
  exact (extraction_miss_falls_through
           "status pesanan saya" [] Tools.get_tools "s1" env_ok empty_world
           eq_refl eq_refl).
Defined.

Lemma backend_failure_gives_fallback_witness :
  ChatChain.invoke "halo" [] Tools.get_tools "s1" env_backend_down empty_world
  = (Ok (ChatChain.mkLlmResponse Prompts.FALLBACK_PROMPT [] "s1"), bump empty_world).
Proof.
  exact (backend_failure_gives_fallback
           "halo" [] Tools.get_tools "s1" env_backend_down empty_world
           BackendError eq_refl eq_refl).
Defined.

Lemma warranty_policy_default_or_single_record_witness :
  Tools.get_warranty_policy_impl env_ok empty_world
  = (Ok Tools.default_warranty_policy, bump empty_world)
  /\ Tools.get_warranty_policy_impl env_ok one_policy_world
     = (Ok "Garansi A", bump one_policy_world).
Proof.
  split.
  - exact (proj1 (proj1 (warranty_policy_default_or_single_record
                           env_ok empty_world eq_refl) eq_refl)).
  - exact (proj2 (warranty_policy_default_or_single_record
                    env_ok one_policy_world eq_refl)
             (policy "p1" "Garansi A") eq_refl).
Defined.

(** C9 - counterexample to the claim as stated: with two policies of
    type warranty stored, the content of a stored warranty record is not
    what the tool returns. *)
Lemma warranty_two_records_counterexample :
  ~ (forall env w p,
       db_fails env (ticks w) = false ->
       In p (policies w) -> Policy_type p = "warranty" ->
       fst (Tools.get_warranty_policy_impl env w)
       = Ok (Policy_content_markdown p)).
Proof.
  intros H.
  specialize (H env_ok two_policies_world (policy "p1" "Garansi A")
                eq_refl (or_introl eq_refl) eq_refl).
  vm_compute in H. discriminate H.
Qed.

Lemma get_memory_context_never_raises_witness :
  exists resp w',
    ChatService.process_message "s1" "halo" env_memory_down empty_world
    = (Ok resp, w').
Proof.
  apply (proj2 (get_memory_context_never_raises "s1" env_memory_down empty_world)
           "halo").
  intros n Hn. simpl in Hn.
  destruct Hn as [<-|[<-|[<-|[<-|[<-|[]]]]]]; reflexivity.
Defined.

(** Scenario of the specification: empty log, a shipped order, the
    utterance naming it. *)
Example first_turn_order_lookup :
  fst (ChatService.process_message "s1" "Di mana pesanan saya? ID: ORD123"
         env_ok shop_world)
  = Ok (mkChatResponse
          ("Pesanan ORD123 sedang dalam pengiriman. via JNE dengan nomor resi JNE789. dengan estimasi tiba 18 September 2025. Terakhir diupdate: 16 September 2025 pukul 14:30."
             ++ PyStr.nl ++ PyStr.nl
             ++ "Ringkas: Informasi pesanan telah ditemukan dan disampaikan.")%string
          "s1" 1 ["get_order_status"] (clock 8)).
Proof. vm_compute. reflexivity. Qed.

(** With the memory query down the excerpt is empty and the turn goes
    on. *)
Example memory_down_excerpt_empty :
  fst (ChatService.process_message_begin "s1" "halo" env_memory_down history_world)
  = Ok (3%Z, []).
Proof. vm_compute. reflexivity. Qed.

(** Second turn on a session with history: the excerpt holds the earlier
    messages and, last, the utterance being processed. *)
Example second_turn_excerpt :
  fst (ChatService.process_message_begin "s1" "terima kasih" env_ok history_world)
  = Ok (3%Z,
        [ mkCtx "user" "halo"; mkCtx "assistant" "hai";
          mkCtx "user" "apa kabar"; mkCtx "assistant" "baik";
          mkCtx "user" "terima kasih" ]).
Proof. vm_compute. reflexivity. Qed.

(** The order-id patterns on a few utterances. *)
Example extract_order_id_samples :
  ChatChain._extract_order_id "Di mana pesanan saya? ID: ORD123" = "ORD123"
  /\ ChatChain._extract_order_id "cek ORD77 dong" = "ORD77"
  /\ ChatChain._extract_order_id "valid: yes" = "yes"
  /\ ChatChain._extract_order_id "status pesanan saya" = "".
Proof. repeat split; vm_compute; reflexivity. Qed.

Example extract_product_name_samples :
  ChatChain._extract_product_name "Apa kelebihan laptop gaming X?" = "gaming X"
  /\ ChatChain._extract_product_name "harga laptop gaming x pro max!" = "gaming x pro"
  /\ ChatChain._extract_product_name "harga laptop" = ""
  /\ ChatChain._extract_product_name "berapa harga" = "produk".
Proof. repeat split; vm_compute; reflexivity. Qed.

Example price_formatted_samples :
  Tools.price_formatted 1850000000 = "Rp 18.500.000"
  /\ Tools.price_formatted 250 = "Rp 2"
  /\ Tools.price_formatted 350 = "Rp 4".
Proof. repeat split; vm_compute; reflexivity. Qed.

End Instances.

(* ================================================================== *)
(** * The lookups under faults; the replies built from them *)
(* ================================================================== *)

Section ToolReplies.
Import PyStr.

Lemma get_order_status_impl_run (order_id : string) env w :
  Tools.get_order_status_impl order_id env w
  = (Ok (if db_fails env (ticks w) then Tools.order_error_message order_id
         else match filter (fun o => String.eqb (Order_id o) order_id) (orders w) with
              | [] => Tools.order_not_found_message order_id
              | [order] => Tools.order_found_message order_id order
              | _ :: _ :: _ => Tools.order_error_message order_id
              end),
     bump w).
Proof.
  unfold Tools.get_order_status_impl, try_except, bind, db_execute, ret.
  destruct (db_fails env (ticks w)); [reflexivity |].
  destruct (filter _ (orders w)) as [|o [|o' rows]]; reflexivity.
Qed.

Lemma get_product_info_impl_run (product_name : string) env w :
  Tools.get_product_info_impl product_name env w
  = (Ok (if db_fails env (ticks w) then product_error_message product_name
         else match filter (fun p => Sql.ilike (Product_name p)
                                       ("%" ++ product_name ++ "%"))
                           (products w) with
              | [] => product_not_found_message product_name
              | product :: _ => product_found_message product
              end),
     bump w).
Proof.
  unfold Tools.get_product_info_impl, try_except, bind, db_execute, ret.
  destruct (db_fails env (ticks w)); [reflexivity |].
  destruct (filter _ (products w)); reflexivity.
Qed.

(** X1 - the three lookups never raise: whatever the tables hold and
    whenever the database fails, each returns a text after one
    statement, and when its statement fails that text is its apology. *)
Theorem lookups_turn_faults_into_apologies env w :
  (forall order_id,
      exists text,
        Tools.get_order_status_impl order_id env w = (Ok text, bump w)
        /\ (db_fails env (ticks w) = true ->
            text = Tools.order_error_message order_id))
  /\ (forall product_name,
        exists text,
          Tools.get_product_info_impl product_name env w = (Ok text, bump w)
          /\ (db_fails env (ticks w) = true ->
              text = product_error_message product_name))
  /\ (exists text,
        Tools.get_warranty_policy_impl env w = (Ok text, bump w)
        /\ (db_fails env (ticks w) = true ->
            text = Tools.warranty_error_message)).
Proof.
  split; [| split].
  - intros order_id. rewrite get_order_status_impl_run.
    eexists. split; [reflexivity |]. intros ->. reflexivity.
  - intros product_name. rewrite get_product_info_impl_run.
    eexists. split; [reflexivity |]. intros ->. reflexivity.
  - unfold Tools.get_warranty_policy_impl, try_except, bind, db_execute, ret.
    destruct (db_fails env (ticks w)).
    + eexists. split; [reflexivity |]. reflexivity.
    + destruct (scalar_one_or_none _) as [[p|]|e];
        (eexists; split; [reflexivity | discriminate]).
Qed.

Lemma endswith_marker_dot (body : string) :
  endswith "Ringkas:" (body ++ ".") = false.
Proof.
  unfold endswith. rewrite reverse_append. reflexivity.
Qed.

Lemma add_summary_after_dot (text summary : string) :
  ends_with_dot text ->
  ChatChain.add_summary text summary = with_summary text summary.
Proof.
  intros [body ->]. unfold ChatChain.add_summary.
  now rewrite endswith_marker_dot.
Qed.

(** A text closed by a summary line that starts with the marker passes
    the last check of [invoke] unchanged and ends with that line. *)
Lemma with_summary_is_final (text summary : string) :
  startswith "Ringkas:" summary = true ->
  ChatChain.ensure_summary (with_summary text summary) = with_summary text summary
  /\ last_line (with_summary text summary) = last_line summary.
Proof.
  intros H. apply startswith_split in H as [rest ->].
  unfold with_summary. split.
  - apply ensure_summary_keeps_marked_text.
    rewrite <- (append_assoc text nl), <- (append_assoc (text ++ nl) nl).
    apply contains_intro.
  - rewrite last_line_after_nl. apply (last_line_after_nl "").
Qed.

(** What [invoke] makes of a tool text that ends with a full stop. *)
Lemma tool_reply_final (text summary : string) :
  ends_with_dot text ->
  startswith "Ringkas:" summary = true ->
  ChatChain.ensure_summary (ChatChain.add_summary text summary)
  = with_summary text summary.
Proof.
  intros D S. rewrite (add_summary_after_dot _ _ D).
  apply with_summary_is_final, S.
Qed.

Lemma order_text_ends_with_dot (order_id : string) env w text :
  Tools.get_order_status_impl order_id env w = (Ok text, bump w) ->
  ends_with_dot text.
Proof.
  rewrite get_order_status_impl_run. intros H. injection H as <-.
  assert (E : ends_with_dot (Tools.order_error_message order_id)).
  { exists ("Maaf, terjadi kesalahan saat mencari pesanan " ++ order_id
            ++ ". Silakan coba lagi atau hubungi customer service")%string.
    unfold Tools.order_error_message. now rewrite !append_assoc. }
  destruct (db_fails env (ticks w)); [exact E |].
  destruct (filter _ (orders w)) as [|o [|o' rows]]; [| | exact E].
  - exists ("Pesanan dengan ID " ++ order_id
            ++ " tidak ditemukan. Pastikan ID pesanan benar atau hubungi customer service")%string.
    unfold Tools.order_not_found_message. now rewrite !append_assoc.
  - eexists. reflexivity.
Qed.

Lemma product_text_ends_with_dot (product_name : string) env w text :
  Tools.get_product_info_impl product_name env w = (Ok text, bump w) ->
  ends_with_dot text.
Proof.
  rewrite get_product_info_impl_run. intros H. injection H as <-.
  destruct (db_fails env (ticks w)).
  - exists ("Maaf, terjadi kesalahan saat mencari produk '" ++ product_name
            ++ "'. Silakan coba lagi")%string.
    unfold product_error_message. now rewrite !append_assoc.
  - destruct (filter _ (products w)) as [|p rows].
    + exists ("Produk '" ++ product_name
              ++ "' tidak ditemukan. Silakan periksa nama produk atau lihat katalog lengkap di website kami")%string.
      unfold product_not_found_message. now rewrite !append_assoc.
    + eexists. reflexivity.
Qed.

(** The turn of an utterance routed to the order lookup. *)
Lemma invoke_order_path (user_message : string) (memory_context : list CtxEntry)
    (sid : string) env w :
  route_tool_calls user_message = ["get_order_status"] ->
  exists text,
    Tools.get_order_status_impl
      (ChatChain._extract_order_id user_message) env w = (Ok text, bump w)
    /\ ChatChain.invoke user_message memory_context Tools.get_tools sid env w
       = (Ok (ChatChain.mkLlmResponse (with_summary text order_summary)
                ["get_order_status"] sid),
          bump w).
Proof.
  intros R. unfold route_tool_calls in R.
  destruct (ChatChain._should_call_order_tool user_message) eqn:Ho.
  - destruct (truthy (ChatChain._extract_order_id user_message)) eqn:Ht;
      [| discriminate].
    destruct (get_order_status_impl_step
                (ChatChain._extract_order_id user_message) env w) as [text Hrun].
    exists text. split; [exact Hrun |].
    pose proof (order_text_ends_with_dot _ _ _ _ Hrun) as D.
    unfold ChatChain.invoke, try_except, bind.
    rewrite Ho, Ht, find_order_tool.
    unfold Tools.create_order_status_tool, Tools.tool_func. rewrite Hrun.
    rewrite <- (tool_reply_final _ order_summary D eq_refl). reflexivity.
  - destruct (ChatChain._should_call_product_tool user_message);
      [destruct (truthy _); discriminate |].
    destruct (ChatChain._should_call_warranty_tool user_message); discriminate.
Qed.

(** The turn of an utterance routed to the product lookup. *)
Lemma invoke_product_path (user_message : string) (memory_context : list CtxEntry)
    (sid : string) env w :
  route_tool_calls user_message = ["get_product_info"] ->
  exists text,
    Tools.get_product_info_impl
      (ChatChain._extract_product_name user_message) env w = (Ok text, bump w)
    /\ ChatChain.invoke user_message memory_context Tools.get_tools sid env w
       = (Ok (ChatChain.mkLlmResponse (with_summary text product_summary)
                ["get_product_info"] sid),
          bump w).
Proof.
  intros R. unfold route_tool_calls in R.
  destruct (ChatChain._should_call_order_tool user_message) eqn:Ho;
    [destruct (truthy _); discriminate |].
  destruct (ChatChain._should_call_product_tool user_message) eqn:Hp.
  - destruct (truthy (ChatChain._extract_product_name user_message)) eqn:Ht;
      [| discriminate].
    destruct (get_product_info_impl_step
                (ChatChain._extract_product_name user_message) env w) as [text Hrun].
    exists text. split; [exact Hrun |].
    pose proof (product_text_ends_with_dot _ _ _ _ Hrun) as D.
    unfold ChatChain.invoke, try_except, bind.
    rewrite Ho, Hp, Ht, find_product_tool.
    unfold Tools.create_product_info_tool, Tools.tool_func. rewrite Hrun.
    rewrite <- (tool_reply_final _ product_summary D eq_refl). reflexivity.
  - destruct (ChatChain._should_call_warranty_tool user_message); discriminate.
Qed.

End ToolReplies.

Section ToolRepliesTheorems.
Import PyStr.

(** The turn of an utterance routed to the warranty lookup. *)
Lemma invoke_warranty_path (user_message : string) (memory_context : list CtxEntry)
    (sid : string) env w :
  route_tool_calls user_message = ["get_warranty_policy"] ->
  exists text,
    Tools.get_warranty_policy_impl env w = (Ok text, bump w)
    /\ ChatChain.invoke user_message memory_context Tools.get_tools sid env w
       = (Ok (ChatChain.mkLlmResponse
                (ChatChain.ensure_summary
                   (ChatChain.add_summary text warranty_summary))
                ["get_warranty_policy"] sid),
          bump w).
Proof.
  intros R. unfold route_tool_calls in R.
  destruct (ChatChain._should_call_order_tool user_message) eqn:Ho;
    [destruct (truthy _); discriminate |].
  destruct (ChatChain._should_call_product_tool user_message) eqn:Hp;
    [destruct (truthy _); discriminate |].
  destruct (ChatChain._should_call_warranty_tool user_message) eqn:Hw;
    [| discriminate].
  destruct (get_warranty_policy_impl_step env w) as [text Hrun].
  exists text. split; [exact Hrun |].
  unfold ChatChain.invoke, try_except, bind.
  rewrite Ho, Hp, Hw, find_warranty_tool.
  unfold Tools.create_warranty_policy_tool, Tools.tool_func. rewrite Hrun.
  reflexivity.
Qed.

Lemma route_nil_no_tool (user_message : string) :
  route_tool_calls user_message = [] -> no_tool_utterance user_message = true.
Proof.
  unfold route_tool_calls, no_tool_utterance.
  destruct (ChatChain._should_call_order_tool user_message);
    [destruct (truthy _); [discriminate | reflexivity] |].
  destruct (ChatChain._should_call_product_tool user_message);
    [destruct (truthy _); [discriminate | reflexivity] |].
  destruct (ChatChain._should_call_warranty_tool user_message);
    [discriminate | reflexivity].
Qed.

(** C3 - the three intents are tried in the fixed order order status,
    product info, warranty policy and the first match wins.  A turn
    talks to the outside exactly once; [tool_calls] is what the priority
    routing names, so it is empty or holds exactly one of the three tool
    names; and the reply is the one of the route taken: the text of the
    order lookup run on the extracted id, of the product lookup run on
    the extracted name, or of the warranty lookup, each with the summary
    of its tool, and the generative reply when no tool is named.  In
    particular an utterance with trigger words of both the order and the
    product intent takes the order path: its reply is the order lookup
    on the extracted id (the generative reply when no id is extracted)
    and no other tool of the list can matter. *)
Theorem intent_priority_first_match_wins
    (user_message : string) (memory_context : list CtxEntry) (sid : string) env w :
  exists resp,
    ChatChain.invoke user_message memory_context Tools.get_tools sid env w
    = (Ok resp, bump w)
    /\ ChatChain.tool_calls resp = route_tool_calls user_message
    /\ ChatChain.session_id resp = sid
    /\ (ChatChain.tool_calls resp = []
        \/ ChatChain.tool_calls resp = ["get_order_status"]
        \/ ChatChain.tool_calls resp = ["get_product_info"]
        \/ ChatChain.tool_calls resp = ["get_warranty_policy"])
    /\ (route_tool_calls user_message = ["get_order_status"] ->
        exists text,
          Tools.get_order_status_impl
            (ChatChain._extract_order_id user_message) env w = (Ok text, bump w)
          /\ ChatChain.message resp = with_summary text order_summary)
    /\ (route_tool_calls user_message = ["get_product_info"] ->
        exists text,
          Tools.get_product_info_impl
            (ChatChain._extract_product_name user_message) env w
          = (Ok text, bump w)
          /\ ChatChain.message resp = with_summary text product_summary)
    /\ (route_tool_calls user_message = ["get_warranty_policy"] ->
        exists text,
          Tools.get_warranty_policy_impl env w = (Ok text, bump w)
          /\ ChatChain.message resp
             = ChatChain.ensure_summary
                 (ChatChain.add_summary text warranty_summary))
    /\ (route_tool_calls user_message = [] ->
        ChatChain.message resp
        = generative_reply user_message memory_context env w)
    /\ (ChatChain._should_call_order_tool user_message = true ->
        ChatChain._should_call_product_tool user_message = true ->
        ChatChain.tool_calls resp
        = (if truthy (ChatChain._extract_order_id user_message)
           then ["get_order_status"] else [])
        /\ (if truthy (ChatChain._extract_order_id user_message)
            then exists text,
                   Tools.get_order_status_impl
                     (ChatChain._extract_order_id user_message) env w
                   = (Ok text, bump w)
                   /\ resp = ChatChain.mkLlmResponse
                               (with_summary text order_summary)
                               ["get_order_status"] sid
            else resp = ChatChain.mkLlmResponse
                          (generative_reply user_message memory_context env w)
                          [] sid)
        /\ forall tools,
             ChatChain.invoke user_message memory_context tools sid env w
             = ChatChain.invoke user_message memory_context
                 (order_tools_only tools) sid env w).
Proof.
  destruct (invoke_run user_message memory_context sid env w) as [reply H].
  assert (Ro : route_tool_calls user_message = ["get_order_status"] ->
               exists text,
                 Tools.get_order_status_impl
                   (ChatChain._extract_order_id user_message) env w
                 = (Ok text, bump w)
                 /\ reply = with_summary text order_summary).
  { intros R.
    destruct (invoke_order_path user_message memory_context sid env w R)
      as (text & Hrun & Hi).
    exists text. split; [exact Hrun |]. rewrite Hi in H. now injection H. }
  assert (Rn : route_tool_calls user_message = [] ->
               reply = generative_reply user_message memory_context env w).
  { intros R. rewrite (invoke_no_tool _ _ _ _ _ _ (route_nil_no_tool _ R)) in H.
    now injection H. }
  eexists. split; [exact H |]. cbn [ChatChain.tool_calls ChatChain.session_id
                                     ChatChain.message].
  split; [reflexivity |]. split; [reflexivity |].
  split; [apply route_tool_calls_cases |].
  split; [exact Ro |]. split; [| split; [| split; [exact Rn |]]].
  - intros R.
    destruct (invoke_product_path user_message memory_context sid env w R)
      as (text & Hrun & Hi).
    exists text. split; [exact Hrun |]. rewrite Hi in H. now injection H.
  - intros R.
    destruct (invoke_warranty_path user_message memory_context sid env w R)
      as (text & Hrun & Hi).
    exists text. split; [exact Hrun |]. rewrite Hi in H. now injection H.
  - intros Ho _.
    assert (R : route_tool_calls user_message
                = if truthy (ChatChain._extract_order_id user_message)
                  then ["get_order_status"] else [])
      by (unfold route_tool_calls; now rewrite Ho).
    split; [exact R |]. split.
    + destruct (truthy (ChatChain._extract_order_id user_message)).
      * destruct (Ro R) as (text & Hrun & ->).
        exists text. split; [exact Hrun |]. now rewrite R.
      * rewrite (Rn R), R. reflexivity.
    + intros tools. now apply invoke_order_intent_ignores_other_tools.
Qed.

(** X2 - a turn routed to the order lookup or to the product lookup
    always ends with a summary line, whatever the lookup finds and
    whether or not it fails: the reply is the text that the lookup of
    the route returns for the extracted id or name, which ends with a
    full stop, then a blank line, then the fixed summary of that very
    tool. *)
Theorem tool_reply_ends_with_summary_line
    (user_message : string) (memory_context : list CtxEntry) (sid : string) env w :
  (route_tool_calls user_message = ["get_order_status"] ->
   exists text,
     Tools.get_order_status_impl
       (ChatChain._extract_order_id user_message) env w = (Ok text, bump w)
     /\ ends_with_dot text
     /\ ChatChain.invoke user_message memory_context Tools.get_tools sid env w
        = (Ok (ChatChain.mkLlmResponse (with_summary text order_summary)
                 ["get_order_status"] sid),
           bump w)
     /\ ends_with_summary_line (with_summary text order_summary) = true)
  /\ (route_tool_calls user_message = ["get_product_info"] ->
      exists text,
        Tools.get_product_info_impl
          (ChatChain._extract_product_name user_message) env w
        = (Ok text, bump w)
        /\ ends_with_dot text
        /\ ChatChain.invoke user_message memory_context Tools.get_tools sid env w
           = (Ok (ChatChain.mkLlmResponse (with_summary text product_summary)
                    ["get_product_info"] sid),
              bump w)
        /\ ends_with_summary_line (with_summary text product_summary) = true).
Proof.
  split; intros R.
  - destruct (invoke_order_path user_message memory_context sid env w R)
      as (text & Hrun & H).
    exists text. split; [exact Hrun |].
    split; [exact (order_text_ends_with_dot _ _ _ _ Hrun) |].
    split; [exact H |].
    unfold ends_with_summary_line.
    rewrite (proj2 (with_summary_is_final text order_summary eq_refl)).
    reflexivity.
  - destruct (invoke_product_path user_message memory_context sid env w R)
      as (text & Hrun & H).
    exists text. split; [exact Hrun |].
    split; [exact (product_text_ends_with_dot _ _ _ _ Hrun) |].
    split; [exact H |].
    unfold ends_with_summary_line.
    rewrite (proj2 (with_summary_is_final text product_summary eq_refl)).
    reflexivity.
Qed.

(** X3 - an utterance routed to the order lookup whose id is not in the
    order table, or whose lookup fails, still reports the tool as called
    and still closes with the summary saying the order information was
    found: the reply is the not-found text (the apology, on a failure)
    followed by that summary. *)
Theorem unknown_order_reply
    (user_message : string) (memory_context : list CtxEntry) (sid : string) env w :
  route_tool_calls user_message = ["get_order_status"] ->
  let order_id := ChatChain._extract_order_id user_message in
  (db_fails env (ticks w) = false ->
   filter (fun o => String.eqb (Order_id o) order_id) (orders w) = [] ->
   ChatChain.invoke user_message memory_context Tools.get_tools sid env w
   = (Ok (ChatChain.mkLlmResponse
            (with_summary (Tools.order_not_found_message order_id) order_summary)
            ["get_order_status"] sid),
      bump w))
  /\ (db_fails env (ticks w) = true ->
      ChatChain.invoke user_message memory_context Tools.get_tools sid env w
      = (Ok (ChatChain.mkLlmResponse
               (with_summary (Tools.order_error_message order_id) order_summary)
               ["get_order_status"] sid),
         bump w)).
Proof.
  intros R order_id.
  destruct (invoke_order_path user_message memory_context sid env w R)
    as (text & Hrun & H).
  rewrite get_order_status_impl_run in Hrun. injection Hrun as Hrun.
  fold order_id in Hrun. split.
  - intros F E. rewrite F, E in Hrun. rewrite H, <- Hrun. reflexivity.
  - intros F. rewrite F in Hrun. rewrite H, <- Hrun. reflexivity.
Qed.

End ToolRepliesTheorems.

(* ================================================================== *)
(** * What a turn leaves behind *)
(* ================================================================== *)

Section Outcomes.

Lemma _get_next_turn_index_run (sid : string) env w :
  ChatService._get_next_turn_index sid env w
  = if db_fails env (ticks w) then (Raise DatabaseError, advance 1 w)
    else (Ok (1 + max_turn_or_zero sid (messages w))%Z, advance 1 w).
Proof.
  unfold ChatService._get_next_turn_index, bind, db_execute, ret.
  destruct (db_fails env (ticks w)); [reflexivity |].
  rewrite next_of_max_succ. reflexivity.
Qed.

Lemma _save_message_run (sid role content : string) (t : Z) env w :
  let m := mkMessage (uuid4 env (ticks w)) sid role content t
             (utcnow env (1 + ticks w)) in
  ChatService._save_message sid role content t env w
  = if db_fails env (2 + ticks w) then (Raise DatabaseError, advance 3 w)
    else if db_fails env (3 + ticks w)
         then (Raise DatabaseError, advance 4 (store m w))
         else (Ok m, advance 4 (store m w)).
Proof.
  unfold ChatService._save_message, bind, uuid_uuid4, datetime_utcnow,
    db_add_commit, db_refresh, db_execute, bump, advance, store. simpl.
  destruct (db_fails env (S (S (ticks w)))); simpl; [reflexivity |].
  destruct (db_fails env (S (S (S (ticks w))))); reflexivity.
Qed.

Lemma process_message_cases (sid txt : string) env w :
  let t := (1 + max_turn_or_zero sid (messages w))%Z in
  let u := mkMessage (uuid4 env (1 + ticks w)) sid "user" txt t
             (utcnow env (2 + ticks w)) in
  exists (added : list Message) (r : Result ChatResponse) (k : nat),
    ChatService.process_message sid txt env w
    = (r, mkWorld (messages w ++ added) (orders w) (products w) (policies w)
            (k + ticks w))
    /\ (added = [] \/ added = [u]
        \/ exists a, added = [u; a] /\ Message_session_id a = sid
                     /\ Message_role a = "assistant"
                     /\ Message_turn_index a = t)
    /\ (forall resp, r = Ok resp ->
        exists a, added = [u; a] /\ Message_content a = resp_message resp)
    /\ (forall e, r = Raise e -> e = DatabaseError)
    /\ (db_fails env (ticks w) = false -> db_fails env (3 + ticks w) = false ->
        added <> []).
Proof.
  intros t u.
  unfold ChatService.process_message, ChatService.process_message_begin,
    try_except, bind at 1 2 3.
  rewrite _get_next_turn_index_run. fold t.
  destruct (db_fails env (ticks w)) eqn:F0.
  { exists [], (Raise DatabaseError), 1%nat. rewrite app_nil_r.
    split; [reflexivity |]. repeat split; auto; congruence. }
  unfold bind at 1. rewrite _save_message_run.
  cbn [Nat.add ticks advance store messages orders products policies].
  fold u.
  destruct (db_fails env (S (S (S (ticks w))))) eqn:F3.
  { exists [], (Raise DatabaseError), 4%nat. rewrite app_nil_r.
    split; [reflexivity |]. repeat split; auto; try congruence. }
  destruct (db_fails env (S (S (S (S (ticks w)))))) eqn:F4.
  { exists [u], (Raise DatabaseError), 5%nat.
    split; [reflexivity |]. repeat split; auto; try congruence. }
  unfold bind at 1. rewrite get_memory_context_run.
  unfold ret at 1, bind at 1. cbn [fst snd].
  match goal with
  | |- context [ChatChain.invoke ?a ?b Tools.get_tools ?c env ?d] =>
      destruct (invoke_run a b c env d) as [reply ->]
  end.
  unfold bind at 1. rewrite _save_message_run.
  cbn [Nat.add ticks advance store messages orders products policies bump
       ChatChain.message].
  destruct (db_fails env (S (S (S (S (S (S (S (S (S (ticks w))))))))))) eqn:F9.
  { exists [u], (Raise DatabaseError), 10%nat.
    split; [reflexivity |]. repeat split; auto; try congruence. }
  destruct (db_fails env (S (S (S (S (S (S (S (S (S (S (ticks w))))))))))))
    eqn:F10.
  { eexists [u; _], (Raise DatabaseError), 11%nat.
    split; [| split; [| split; [| split]]].
    - unfold db_rollback, bind, ret, raise, advance, store, bump.
      cbn [Nat.add ticks messages orders products policies].
      rewrite <- app_assoc. reflexivity.
    - right. right. eexists. split; [reflexivity |]. auto.
    - discriminate.
    - congruence.
    - discriminate. }
  eexists [u; _], (Ok _), 11%nat.
  split; [| split; [| split; [| split]]].
  - unfold MemoryManager.update_memory, ret, advance, store, bump.
    cbn [Nat.add ticks messages orders products policies].
    rewrite <- app_assoc. reflexivity.
  - right. right. eexists. split; [reflexivity |]. auto.
  - intros resp E. injection E as <-. eexists. split; reflexivity.
  - discriminate.
  - discriminate.
Qed.

(** X4 - whatever happens, a turn only appends to the message log and
    leaves the other tables alone.  It appends nothing, or the user
    message, or the user message and the assistant message, all of the
    session and at the next turn index; it returns only with both
    stored; the only error it raises is the database's; and once the
    user message is committed it stays, although the turn may still
    fail: the rollback does not take it back. *)
Theorem process_message_outcomes (sid txt : string) env w :
  let t := (1 + max_turn_or_zero sid (messages w))%Z in
  let u := mkMessage (uuid4 env (1 + ticks w)) sid "user" txt t
             (utcnow env (2 + ticks w)) in
  exists (added : list Message) (r : Result ChatResponse) (k : nat),
    ChatService.process_message sid txt env w
    = (r, mkWorld (messages w ++ added) (orders w) (products w) (policies w)
            (k + ticks w))
    /\ (added = [] \/ added = [u]
        \/ exists a, added = [u; a] /\ Message_session_id a = sid
                     /\ Message_role a = "assistant"
                     /\ Message_turn_index a = t)
    /\ (forall resp, r = Ok resp ->
        exists a, added = [u; a] /\ Message_content a = resp_message resp)
    /\ (forall e, r = Raise e -> e = DatabaseError)
    /\ (db_fails env (ticks w) = false -> db_fails env (3 + ticks w) = false ->
        added <> []).
Proof. apply process_message_cases. Qed.

Lemma where_session_after_delete (s sid : string) (log : list Message) :
  Sql.where_session s
    (filter (fun m => negb (String.eqb (Message_session_id m) sid)) log)
  = if String.eqb s sid then [] else Sql.where_session s log.
Proof.
  unfold Sql.where_session.
  induction log as [|m log IH]; simpl; [now destruct (String.eqb s sid) |].
  destruct (String.eqb_spec (Message_session_id m) sid) as [E|E]; simpl.
  - rewrite IH. destruct (String.eqb_spec s sid) as [->|N]; [reflexivity |].
    rewrite E. destruct (String.eqb_spec sid s); [congruence | reflexivity].
  - destruct (String.eqb_spec (Message_session_id m) s) as [E'|E'].
    + rewrite IH. destruct (String.eqb_spec s sid); [congruence | reflexivity].
    + exact IH.
Qed.

(** X5 - [clear_memory] is all or nothing.  When it returns, the
    session has no message left, every other session and every other
    table is as before, and the next successful turn of the session gets
    turn index 1 again; when it raises (the database's error), the log is
    unchanged. *)
Theorem clear_memory_all_or_nothing (sid : string) env w :
  exists r w',
    MemoryManager.clear_memory sid env w = (r, w')
    /\ orders w' = orders w /\ products w' = products w
    /\ policies w' = policies w
    /\ (r = Ok tt ->
        Sql.where_session sid (messages w') = []
        /\ (forall s, s <> sid ->
              Sql.where_session s (messages w') = Sql.where_session s (messages w))
        /\ forall txt env' resp w'',
             ChatService.process_message sid txt env' w' = (Ok resp, w'') ->
             resp_turn_index resp = 1%Z)
    /\ (forall e, r = Raise e -> e = DatabaseError /\ messages w' = messages w).
Proof.
  unfold MemoryManager.clear_memory, MemoryManager.db_delete_commit, try_except.
  destruct (db_fails env (ticks w)).
  { eexists. eexists. split; [reflexivity |]. simpl.
    repeat split; try discriminate; congruence. }
  destruct (db_fails env (S (ticks w))).
  { eexists. eexists. split; [reflexivity |]. simpl.
    repeat split; try discriminate; congruence. }
  eexists. eexists. split; [reflexivity |]. simpl.
  split; [reflexivity |]. split; [reflexivity |]. split; [reflexivity |].
  split; [| discriminate].
  intros _.
  assert (E : Sql.where_session sid
                (filter (fun m => negb (String.eqb (Message_session_id m) sid))
                        (messages w)) = []).
  { rewrite where_session_after_delete. now rewrite String.eqb_refl. }
  split; [exact E |]. split.
  - intros s N. rewrite where_session_after_delete.
    destruct (String.eqb_spec s sid); [contradiction | reflexivity].
  - intros txt env' resp w'' H.
    apply process_message_Ok in H as (T & _). rewrite T.
    unfold max_turn_or_zero. simpl messages. rewrite E. reflexivity.
Qed.

End Outcomes.

(* ================================================================== *)
(** * More on the memory excerpt and the prompt *)
(* ================================================================== *)

Section ExcerptAndPrompt.
Import PyStr.





Lemma entry_line_in_memory_text (context : list CtxEntry) (e : CtxEntry) :
  In e context ->
  contains (role_label (ctx_role e) ++ ": " ++ ctx_content e)
    (MemoryManager.format_memory_for_prompt context) = true.
Proof.
  intros H. destruct context as [|e0 context]; [contradiction |].
  unfold MemoryManager.format_memory_for_prompt.
  apply (contains_join _ nl _
           (role_label (ctx_role e) ++ ": " ++ ctx_content e)).
  - right. apply (in_map (fun msg =>
             ((if String.eqb (ctx_role msg) "user" then "Pengguna" else "Asisten")
                ++ ": " ++ ctx_content msg)%string) _ e H).
  - apply (contains_intro_end "").
Qed.

(** X7 - the prompt sent to the backend carries the utterance and the
    whole excerpt: each entry of the excerpt appears in it as a line
    labelled Pengguna when its role is exactly user and Asisten for any
    other role; an empty excerpt gives the no-history sentence instead of
    the history header. *)
Theorem prompt_carries_utterance_and_excerpt
    (user_message : string) (context : list CtxEntry) :
  let memory_text := MemoryManager.format_memory_for_prompt context in
  let prompt := Prompts.format_prompt_with_context user_message memory_text in
  contains user_message prompt = true
  /\ (forall e, In e context ->
        contains (role_label (ctx_role e) ++ ": " ++ ctx_content e) prompt = true)
  /\ (context = [] <->
      memory_text = "Tidak ada riwayat percakapan sebelumnya.").
Proof.
  intros memory_text prompt. split; [| split].
  - unfold prompt, Prompts.format_prompt_with_context.
    rewrite <- (append_assoc Prompts.SYSTEM_PROMPT_head memory_text).
    rewrite <- (append_assoc _ Prompts.SYSTEM_PROMPT_middle).
    apply contains_intro.
  - intros e H. unfold prompt, Prompts.format_prompt_with_context.
    apply contains_append_l, contains_append_r.
    now apply entry_line_in_memory_text.
  - split; [intros ->; reflexivity |].
    destruct context as [|e context]; [reflexivity |].
    unfold memory_text, MemoryManager.format_memory_for_prompt.
    cbn [map join]. destruct (map _ context); discriminate.
Qed.

End ExcerptAndPrompt.

(* ================================================================== *)
(** * The product search *)
(* ================================================================== *)

Section ProductSearch.
Import PyStr.

Lemma like_percent (pat s : string) :
  Sql.like (String "%" pat) s
  = Sql.like pat s
    || match s with
       | EmptyString => false
       | String _ s' => Sql.like (String "%" pat) s'
       end.
Proof. destruct s; reflexivity. Qed.

Lemma like_percent_only (s : string) : Sql.like "%" s = true.
Proof.
  induction s as [|c s IH]; [reflexivity |].
  rewrite like_percent, IH. apply orb_true_r.
Qed.

Lemma like_literal_prefix (p s : string) :
  wildcard_free p = true ->
  Sql.like (p ++ "%") s = startswith p s.
Proof.
  revert s; induction p as [|a p IH]; intros s H.
  - apply like_percent_only.
  - simpl in H. apply andb_true_iff in H as [Ha Hp].
    apply negb_true_iff, orb_false_iff in Ha as [Ha1 Ha2].
    simpl. rewrite Ha1. destruct s as [|d s]; [reflexivity |].
    rewrite Ha2. simpl. now rewrite IH.
Qed.

Lemma like_substring (p s : string) :
  wildcard_free p = true ->
  Sql.like ("%" ++ p ++ "%") s = contains p s.
Proof.
  intros H. induction s as [|c s IH].
  - change ("%" ++ p ++ "%")%string with (String "%" (p ++ "%")).
    rewrite like_percent, like_literal_prefix by exact H.
    reflexivity.
  - change ("%" ++ p ++ "%")%string with (String "%" (p ++ "%")) in *.
    rewrite like_percent, like_literal_prefix by exact H.
    rewrite IH. reflexivity.
Qed.

Lemma lower_append (a b : string) : lower (a ++ b) = (lower a ++ lower b)%string.
Proof.
  induction a as [|c a IH]; simpl; [reflexivity | now rewrite IH].
Qed.

Lemma lower_char_wildcard (c : ascii) :
  Ascii.eqb (lower_char c) "%" || Ascii.eqb (lower_char c) "_"
  = (Ascii.eqb c "%" || Ascii.eqb c "_").
Proof.
  destruct c as [[] [] [] [] [] [] [] []]; reflexivity.
Qed.

Lemma wildcard_free_lower (name : string) :
  wildcard_free (lower name) = wildcard_free name.
Proof.
  induction name as [|c name IH]; simpl; [reflexivity |].
  now rewrite lower_char_wildcard, IH.
Qed.

(** For a name without wildcards the condition of the query is
    containment without regard to letter case. *)
Lemma ilike_is_substring (column name : string) :
  wildcard_free name = true ->
  Sql.ilike column ("%" ++ name ++ "%") = contains (lower name) (lower column).
Proof.
  intros H. unfold Sql.ilike.
  rewrite (lower_append "%"), lower_append.
  change (lower "%") with "%".
  apply like_substring. now rewrite wildcard_free_lower.
Qed.

Lemma filter_head_find {A} (f : A -> bool) (l : list A) :
  match filter f l with [] => None | x :: _ => Some x end = find f l.
Proof.
  induction l as [|x l IH]; simpl; [reflexivity |].
  destruct (f x); [reflexivity | exact IH].
Qed.

Lemma get_product_info_impl_plain (product_name : string) env w :
  db_fails env (ticks w) = false ->
  wildcard_free product_name = true ->
  Tools.get_product_info_impl product_name env w
  = (Ok match first_product_containing product_name (products w) with
        | Some product => product_found_message product
        | None => product_not_found_message product_name
        end,
     bump w).
Proof.
  intros F H. rewrite get_product_info_impl_run, F.
  unfold first_product_containing.
  rewrite <- (filter_head_find _ (products w)).
  rewrite (filter_ext
             (fun p => Sql.ilike (Product_name p) ("%" ++ product_name ++ "%"))
             (fun p => contains (lower product_name) (lower (Product_name p))))
    by (intros p; now apply ilike_is_substring).
  destruct (filter _ (products w)); reflexivity.
Qed.

(** X8 - for a name without the characters % and _, the product lookup
    is a search for the name inside the product names without regard to
    letter case; among several matching products it answers with the
    first in storage order, and with the not-found text when there is
    none. *)
Theorem product_lookup_first_substring_match (product_name : string) env w :
  db_fails env (ticks w) = false ->
  wildcard_free product_name = true ->
  Tools.get_product_info_impl product_name env w
  = (Ok match first_product_containing product_name (products w) with
        | Some product => product_found_message product
        | None => product_not_found_message product_name
        end,
     bump w).
Proof. apply get_product_info_impl_plain. Qed.

Lemma like_all_percent (pat s : string) :
  percent_only pat = true -> pat <> "" -> Sql.like pat s = true.
Proof.
  revert s; induction pat as [|c pat IH]; intros s H N; [contradiction |].
  simpl in H. apply andb_true_iff in H as [Hc Hp].
  apply Ascii.eqb_eq in Hc as ->.
  destruct pat as [|d pat]; [apply like_percent_only |].
  rewrite like_percent, IH by (assumption || discriminate). reflexivity.
Qed.

Lemma percent_only_append (a b : string) :
  percent_only (a ++ b) = percent_only a && percent_only b.
Proof.
  induction a as [|c a IH]; simpl; [reflexivity |].
  now rewrite IH, andb_assoc.
Qed.

Lemma percent_only_lower (name : string) :
  percent_only name = true -> lower name = name.
Proof.
  induction name as [|c name IH]; simpl; [reflexivity |].
  intros H. apply andb_true_iff in H as [Hc Hn].
  apply Ascii.eqb_eq in Hc as ->. now rewrite IH.
Qed.

(** X9 - the name goes into the pattern as it is, wildcards included:
    for a name made of the character % only, every product matches, and
    the lookup answers with the first product of the table whatever its
    name is. *)
Theorem product_lookup_percent_matches_anything
    (product_name : string) (product : Product) (others : list Product) env w :
  db_fails env (ticks w) = false ->
  percent_only product_name = true ->
  products w = product :: others ->
  Tools.get_product_info_impl product_name env w
  = (Ok (product_found_message product), bump w).
Proof.
  intros F N T. rewrite get_product_info_impl_run, F, T.
  assert (M : Sql.ilike (Product_name product) ("%" ++ product_name ++ "%") = true).
  { unfold Sql.ilike.
    assert (P : percent_only ("%" ++ product_name ++ "%") = true).
    { rewrite (percent_only_append "%"), percent_only_append, N. reflexivity. }
    rewrite (percent_only_lower _ P).
    apply like_all_percent; [exact P | discriminate]. }
  cbn [filter]. rewrite M. reflexivity.
Qed.

End ProductSearch.

(* ================================================================== *)
(** * What the patterns can extract *)
(* ================================================================== *)

Section Extraction.
Import PyStr.

Variable q : ascii -> bool.
Variable flags : bool.

Lemma allc_append (a b : string) :
  allc q (a ++ b) = allc q a && allc q b.
Proof.
  induction a as [|c a IH]; simpl; [reflexivity |].
  now rewrite IH, andb_assoc.
Qed.

Lemma length_append (a b : string) :
  String.length (a ++ b) = (String.length a + String.length b)%nat.
Proof.
  induction a as [|c a IH]; simpl; [reflexivity | now rewrite IH].
Qed.

Lemma take_str_length (c s : string) :
  Re.take_str (String.length c) (c ++ s) = c.
Proof.
  induction c as [|x c IH]; simpl; [now destruct s | now rewrite IH].
Qed.

Lemma take_str_append (c s : string) :
  Re.take_str (String.length (c ++ s) - String.length s) (c ++ s) = c.
Proof.
  rewrite length_append, Nat.add_sub. apply take_str_length.
Qed.

Lemma append_nonempty (a b : string) :
  a <> "" \/ b <> "" -> (a ++ b)%string <> "".
Proof.
  destruct a; simpl; [intros [H|H]; [contradiction | exact H] | discriminate].
Qed.

(** What a step of the matcher hands to its continuation: the text
    [consumed] was read from [s]; it is made of characters of [q] when
    the step can only read such characters, and it is not empty when
    [nn] says so. *)
Definition step_ok {R} (ok : Prop) (nn : bool) (s : string)
    (k : option ascii -> string -> option R) (x : R) : Prop :=
  exists pv' consumed s',
    k pv' s' = Some x /\ s = (consumed ++ s')%string
    /\ (ok -> allc q consumed = true)
    /\ (nn = true -> consumed <> "").

Lemma match_lit_ok {R} (l : string) pv (s : string)
    (k : option ascii -> string -> option R) (x : R) :
  Re.match_lit flags l pv s k = Some x ->
  step_ok (lit_within q flags l) (truthy l) s k x.
Proof.
  revert pv s; induction l as [|a l IH]; intros pv s H; simpl in H.
  - exists pv, "", s. repeat split; auto; discriminate.
  - destruct s as [|b s]; [discriminate |].
    destruct (Re.char_eq flags a b) eqn:E; [| discriminate].
    destruct (IH _ _ H) as (pv' & c & s' & Hk & -> & Hq & _).
    exists pv', (String b c), s'. repeat split; auto; [| discriminate].
    intros [Ha Hl]. simpl. now rewrite (Ha b E), Hq.
Qed.

Lemma match_one_ok {R} (p : Re.charclass) pv (s : string)
    (k : option ascii -> string -> option R) (x : R) :
  Re.match_one flags p pv s k = Some x ->
  step_ok (forall c, Re.in_cls flags p c = true -> q c = true) true s k x.
Proof.
  unfold Re.match_one. destruct s as [|c s]; [discriminate |].
  destruct (Re.in_cls flags p c) eqn:E; [| discriminate].
  intros H. exists (Some c), (String c ""), s. repeat split; auto; [| discriminate].
  intros Hq. simpl. now rewrite (Hq c E).
Qed.

Lemma match_star_ok {R} (p : Re.charclass) pv (s : string)
    (k : option ascii -> string -> option R) (x : R) :
  Re.match_star flags p pv s k = Some x ->
  step_ok (forall c, Re.in_cls flags p c = true -> q c = true) false s k x.
Proof.
  revert pv; induction s as [|c s IH]; intros pv H; simpl in H.
  - exists pv, "", "". repeat split; auto; discriminate.
  - destruct (Re.in_cls flags p c) eqn:E.
    + destruct (Re.match_star flags p (Some c) s k) as [y|] eqn:M.
      * injection H as ->.
        destruct (IH _ M) as (pv' & d & s' & Hk & -> & Hq & _).
        exists pv', (String c d), s'. repeat split; auto; [| discriminate].
        intros Hp. simpl. now rewrite (Hp c E), Hq.
      * exists pv, "", (String c s). repeat split; auto; discriminate.
    + exists pv, "", (String c s). repeat split; auto; discriminate.
Qed.

Lemma match_star_lazy_ok {R} (p : Re.charclass) pv (s : string)
    (k : option ascii -> string -> option R) (x : R) :
  Re.match_star_lazy flags p pv s k = Some x ->
  step_ok (forall c, Re.in_cls flags p c = true -> q c = true) false s k x.
Proof.
  revert pv; induction s as [|c s IH]; intros pv H; simpl in H.
  - destruct (k pv "") as [y|] eqn:K; [| discriminate].
    injection H as ->. exists pv, "", "". repeat split; auto; discriminate.
  - destruct (k pv (String c s)) as [y|] eqn:K.
    + injection H as ->. exists pv, "", (String c s).
      repeat split; auto; discriminate.
    + destruct (Re.in_cls flags p c) eqn:E; [| discriminate].
      destruct (IH _ H) as (pv' & d & s' & Hk & -> & Hq & _).
      exists pv', (String c d), s'. repeat split; auto; [| discriminate].
      intros Hp. simpl. now rewrite (Hp c E), Hq.
Qed.

(** One character of the class followed by a repetition. *)
Lemma step_ok_plus {R} (ok : Prop) (s : string)
    (k : option ascii -> string -> option R) (x : R)
    (k1 : option ascii -> string -> option R) :
  step_ok ok true s k1 x ->
  (forall pv t, k1 pv t = Some x -> step_ok ok false t k x) ->
  step_ok ok true s k x.
Proof.
  intros (pv1 & c1 & s1 & H1 & -> & Q1 & N1) H2.
  destruct (H2 _ _ H1) as (pv2 & c2 & s2 & Hk & -> & Q2 & _).
  exists pv2, (c1 ++ c2)%string, s2. repeat split; auto.
  - now rewrite append_assoc.
  - intros Hok. now rewrite allc_append, Q1, Q2.
  - intros _. apply append_nonempty. left. now apply N1.
Qed.

(** A successful match reads a piece [consumed] of the text and leaves
    group 1 as it was or holding a piece of the text. *)
Lemma match_re_ok {R} (r : Re.regex) :
  forall (st : Re.pos) (k : Re.pos -> option R) (x : R),
    Re.match_re flags r st k = Some x ->
    exists st' consumed,
      k st' = Some x
      /\ Re.rest st = (consumed ++ Re.rest st')%string
      /\ (within q flags r -> allc q consumed = true)
      /\ (nonnull r = true -> consumed <> "")
      /\ ((always_groups r = false /\ Re.group1 st' = Re.group1 st)
          \/ exists g a b,
               Re.group1 st' = Some g
               /\ Re.rest st = (a ++ g ++ b)%string
               /\ (groups_within q flags r -> allc q g = true)
               /\ (group_nonnull r = true -> g <> "")).
Proof.
  induction r as [l|p|p|p|p| |r' IH|r1 IH1 r2 IH2]; intros st k x H; simpl in H.
  - apply match_lit_ok in H as (pv' & c & s' & Hk & E & Hq & Hn).
    exists (Re.mkPos pv' s' (Re.group1 st)), c. simpl.
    split; [exact Hk |]. split; [exact E |]. split; [exact Hq |].
    split; [exact Hn |]. left. split; reflexivity.
  - apply match_one_ok in H as (pv' & c & s' & Hk & E & Hq & Hn).
    exists (Re.mkPos pv' s' (Re.group1 st)), c. simpl.
    split; [exact Hk |]. split; [exact E |]. split; [exact Hq |].
    split; [exact Hn |]. left. split; reflexivity.
  - apply match_star_ok in H as (pv' & c & s' & Hk & E & Hq & Hn).
    exists (Re.mkPos pv' s' (Re.group1 st)), c. simpl.
    split; [exact Hk |]. split; [exact E |]. split; [exact Hq |].
    split; [exact Hn |]. left. split; reflexivity.
  - assert (S : step_ok (forall c, Re.in_cls flags p c = true -> q c = true) true
                  (Re.rest st)
                  (fun pv s => k (Re.mkPos pv s (Re.group1 st))) x).
    { eapply step_ok_plus.
      - apply (match_one_ok p (Re.prev st)). exact H.
      - intros pv t Ht. now apply match_star_ok in Ht. }
    destruct S as (pv' & c & s' & Hk & E & Hq & Hn).
    exists (Re.mkPos pv' s' (Re.group1 st)), c. simpl.
    split; [exact Hk |]. split; [exact E |]. split; [exact Hq |].
    split; [exact Hn |]. left. split; reflexivity.
  - assert (S : step_ok (forall c, Re.in_cls flags p c = true -> q c = true) true
                  (Re.rest st)
                  (fun pv s => k (Re.mkPos pv s (Re.group1 st))) x).
    { eapply step_ok_plus.
      - apply (match_one_ok p (Re.prev st)). exact H.
      - intros pv t Ht. now apply match_star_lazy_ok in Ht. }
    destruct S as (pv' & c & s' & Hk & E & Hq & Hn).
    exists (Re.mkPos pv' s' (Re.group1 st)), c. simpl.
    split; [exact Hk |]. split; [exact E |]. split; [exact Hq |].
    split; [exact Hn |]. left. split; reflexivity.
  - destruct (xorb _ _); [| discriminate].
    exists st, "". simpl.
    split; [exact H |]. split; [reflexivity |]. split; [reflexivity |].
    split; [discriminate |]. left. split; reflexivity.
  - destruct (IH _ _ _ H) as (st1 & c & Hk & E & Hq & Hn & _).
    eexists. exists c. split; [exact Hk |]. simpl.
    split; [exact E |]. split; [exact Hq |]. split; [exact Hn |]. right.
    exists c, "", (Re.rest st1). rewrite E at 1 2.
    rewrite take_str_append. auto.
  - destruct (IH1 _ _ _ H) as (st1 & c1 & H1 & E1 & Q1 & N1 & G1).
    destruct (IH2 _ _ _ H1) as (st2 & c2 & H2 & E2 & Q2 & N2 & G2).
    exists st2, (c1 ++ c2)%string. split; [exact H2 |].
    split; [now rewrite E1, E2, append_assoc |]. split; [| split].
    + intros [W1 W2]. now rewrite allc_append, Q1, Q2.
    + intros N. simpl in N. apply orb_true_iff in N. apply append_nonempty.
      destruct N as [N|N]; [left; auto | right; auto].
    + destruct G2 as [[A2 G2]|(g & a & b & Hg & Ea & Qg & Ng)].
      * destruct G1 as [[A1 G1]|(g & a & b & Hg & Ea & Qg & Ng)].
        -- left. cbn [always_groups]. rewrite A1, A2.
           split; [reflexivity | congruence].
        -- right. exists g, a, b. rewrite G2. repeat split; auto.
           ++ intros [W1 _]. auto.
           ++ intros N. simpl in N. apply andb_true_iff in N as [N _]. auto.
      * right. exists g, (c1 ++ a)%string, b. split; [exact Hg |].
        split; [now rewrite E1, Ea, append_assoc |]. split.
        -- intros [_ W2]. auto.
        -- intros N. simpl in N. apply andb_true_iff in N as [_ N]. auto.
Qed.

(** [re.search] followed by [.group(1)] returns a piece of the text. *)
Lemma search_from_ok (r : Re.regex) (s : string) :
  forall pv g,
    Re.search_from flags r pv s = Some g ->
    (exists a b, s = (a ++ g ++ b)%string)
    /\ (groups_within q flags r -> allc q g = true)
    /\ (always_groups r = true -> group_nonnull r = true -> g <> "").
Proof.
  assert (K : forall pv t g,
             Re.match_re flags r (Re.mkPos pv t None)
               (fun st => Some match Re.group1 st with
                               | Some g0 => g0
                               | None => ""
                               end) = Some g ->
             (exists a b, t = (a ++ g ++ b)%string)
             /\ (groups_within q flags r -> allc q g = true)
             /\ (always_groups r = true -> group_nonnull r = true -> g <> "")).
  { intros pv t g M.
    apply match_re_ok in M as (st' & _ & Hk & _ & _ & _ & G). simpl in *.
    injection Hk as <-.
    destruct G as [[A ->]|(g & a & b & -> & E & Q & N)].
    - split; [exists "", t; reflexivity |]. split; [reflexivity | congruence].
    - split; [exists a, b; exact E |]. split; [exact Q | intros _; exact N]. }
  induction s as [|c s IH]; intros pv g H; simpl in H.
  - destruct (Re.match_re flags r _ _) as [y|] eqn:M; [| discriminate].
    injection H as ->. exact (K _ _ _ M).
  - destruct (Re.match_re flags r _ _) as [y|] eqn:M.
    + injection H as ->. exact (K _ _ _ M).
    + destruct (IH _ _ H) as ((a & b & ->) & Q & N).
      split; [exists (String c a), b; reflexivity |]. split; assumption.
Qed.

End Extraction.

Section OrderId.
Import PyStr.

Lemma first_match_ok (q : ascii -> bool) (patterns : list Re.regex)
    (message g : string) :
  Forall (fun r => groups_within q true r
                   /\ always_groups r = true /\ group_nonnull r = true)
         patterns ->
  ChatChain.first_match patterns message = Some g ->
  contains g message = true /\ allc q g = true /\ g <> "".
Proof.
  induction patterns as [|r patterns IH]; intros F H; simpl in H; [discriminate |].
  apply Forall_cons_iff in F as [(Fr & Fa & Fn) Fp].
  unfold Re.search_group1 in H.
  destruct (Re.search_from true r None message) as [y|] eqn:S.
  - injection H as ->.
    apply (search_from_ok q true) in S as ((a & b & ->) & Q & N).
    split; [apply contains_intro |]. split; [exact (Q Fr) | exact (N Fa Fn)].
  - exact (IH Fp H).
Qed.

Lemma in_cls_AZ09_alnum (c : ascii) :
  Re.in_cls true ChatChain.cls_AZ09 c = true -> alnum c = true.
Proof.
  destruct c as [[] [] [] [] [] [] [] []]; vm_compute; congruence.
Qed.

Lemma order_id_patterns_groups :
  Forall (fun r => groups_within alnum true r
                   /\ always_groups r = true /\ group_nonnull r = true)
         ChatChain.order_id_patterns.
Proof.
  unfold ChatChain.order_id_patterns.
  repeat constructor; simpl; try exact in_cls_AZ09_alnum;
    intros d; destruct d as [[] [] [] [] [] [] [] []]; vm_compute; congruence.
Qed.

(** X10 - for every utterance made of ASCII characters, the order id
    taken from it is a piece of the utterance itself and is made of ASCII
    letters and digits only (so it holds no blank, no colon and no line
    feed); it is empty exactly when none of the three patterns matches.
    (Outside ASCII, [re.IGNORECASE] lets the class of the patterns match
    further letters; such utterances are not covered.) *)
Theorem extracted_order_id_is_alphanumeric_piece (user_message : string) :
  is_ascii user_message = true ->
  let order_id := ChatChain._extract_order_id user_message in
  contains order_id user_message = true
  /\ allc alnum order_id = true
  /\ (order_id = ""
      <-> ChatChain.first_match ChatChain.order_id_patterns user_message = None).
Proof.
  intros _. unfold ChatChain._extract_order_id.
  destruct (ChatChain.first_match ChatChain.order_id_patterns user_message)
    as [g|] eqn:E.
  - destruct (first_match_ok alnum _ _ _ order_id_patterns_groups E)
      as (C & A & N).
    split; [exact C |]. split; [exact A |].
    split; [intros ->; contradiction | discriminate].
  - split; [apply (contains_intro "" "" user_message) |].
    split; [reflexivity | tauto].
Qed.

End OrderId.

Section ProductName.
Import PyStr.

Lemma in_cls_AZaz09s (c : ascii) :
  Re.in_cls true ChatChain.cls_AZaz09s c = true -> alnum_or_space c = true.
Proof.
  destruct c as [[] [] [] [] [] [] [] []]; vm_compute; congruence.
Qed.

Lemma product_name_patterns_groups :
  Forall (fun r => groups_within alnum_or_space true r
                   /\ always_groups r = true /\ group_nonnull r = true)
         ChatChain.product_name_patterns.
Proof.
  unfold ChatChain.product_name_patterns.
  repeat constructor; simpl; exact in_cls_AZaz09s.
Qed.

Lemma alnum_or_space_no_wildcard (c : ascii) :
  alnum_or_space c = true -> negb (Ascii.eqb c "%" || Ascii.eqb c "_") = true.
Proof.
  destruct c as [[] [] [] [] [] [] [] []]; vm_compute; congruence.
Qed.

Lemma allc_wildcard_free (s : string) :
  allc alnum_or_space s = true -> wildcard_free s = true.
Proof.
  induction s as [|c s IH]; simpl; [reflexivity |].
  intros H. apply andb_true_iff in H as [Hc Hs].
  now rewrite (alnum_or_space_no_wildcard c Hc), IH.
Qed.

(** A text that holds [x ++ y ++ z] holds [y]. *)
Lemma contains_piece (x y z h : string) :
  contains (x ++ y ++ z) h = true -> contains y h = true.
Proof.
  induction h as [|c h IH]; simpl.
  - rewrite orb_false_r. intros H. apply startswith_split in H as [r H].
    destruct x; [| discriminate]. destruct y; [reflexivity | discriminate].
  - intros H. apply orb_true_iff in H as [H|H].
    + apply startswith_split in H as [r H].
      rewrite !append_assoc in H.
      pose proof (contains_intro x y (z ++ r)) as K.
      rewrite <- H in K. exact K.
    + rewrite (IH H). apply orb_true_r.
Qed.

(** X11 - for every utterance made of ASCII characters, when one of the
    three product patterns matches, the product name is a piece of the
    utterance made of ASCII letters, digits and white space only; it
    holds no wildcard, so the lookup of that name is the plain search for
    it inside the product names.  (Outside ASCII the patterns match
    further letters and spaces; such utterances are not covered.) *)
Theorem pattern_product_name_is_plain (user_message g : string) :
  is_ascii user_message = true ->
  ChatChain.first_match ChatChain.product_name_patterns user_message = Some g ->
  let product_name := ChatChain._extract_product_name user_message in
  product_name = strip g
  /\ contains product_name user_message = true
  /\ allc alnum_or_space product_name = true
  /\ wildcard_free product_name = true
  /\ forall env w,
       db_fails env (ticks w) = false ->
       Tools.get_product_info_impl product_name env w
       = (Ok match first_product_containing product_name (products w) with
             | Some product => product_found_message product
             | None => product_not_found_message product_name
             end,
          bump w).
Proof.
  intros _ E. unfold ChatChain._extract_product_name. rewrite E. cbv zeta.
  destruct (first_match_ok alnum_or_space _ _ _ product_name_patterns_groups E)
    as (C & A & _).
  destruct (strip_by_inside isspace g) as (a & b & Hg).
  fold (strip g) in Hg.
  assert (A' : allc alnum_or_space (strip g) = true).
  { rewrite Hg in A. rewrite !allc_append in A.
    apply andb_true_iff in A as [_ A]. now apply andb_true_iff in A as [A _]. }
  assert (W : wildcard_free (strip g) = true) by now apply allc_wildcard_free.
  split; [reflexivity |]. split; [| split; [exact A' | split; [exact W |]]].
  - rewrite Hg in C. exact (contains_piece _ _ _ _ C).
  - intros env w F. now apply get_product_info_impl_plain.
Qed.

End ProductName.

(* ================================================================== *)
(** * An invariant of the message log; the warranty reply *)
(* ================================================================== *)

Section LogInvariant.
Import PyStr.

Lemma sorted_append {A} (R : A -> A -> Prop) (a b : list A) :
  StronglySorted R a -> StronglySorted R b ->
  (forall x y, In x a -> In y b -> R x y) ->
  StronglySorted R (a ++ b).
Proof.
  induction 1 as [|z a Hs IH Hz]; simpl; intros Hb Hc; [exact Hb |].
  constructor.
  - apply IH; [exact Hb |]. intros x y Hx Hy. apply Hc; [now right | exact Hy].
  - rewrite Forall_forall in *. intros y Hy.
    apply in_app_or in Hy as [Hy|Hy]; [now apply Hz |].
    apply Hc; [now left | exact Hy].
Qed.

Lemma sorted_constant (t : Z) (l : list Z) :
  Forall (eq t) l -> StronglySorted Z.le l.
Proof.
  induction 1 as [|x l <- F IH]; constructor; [exact IH |].
  rewrite Forall_forall in *. intros y Hy. rewrite <- (F y Hy). lia.
Qed.

Lemma sql_max_In (l : list Z) (m : Z) : Sql.sql_max l = Some m -> In m l.
Proof.
  revert m; induction l as [|x l IH]; simpl; intros m H; [discriminate |].
  destruct (Sql.sql_max l) as [y|].
  - injection H as <-. destruct (Z.max_spec x y) as [[_ ->]|[_ ->]]; auto.
  - injection H as <-. now left.
Qed.

Lemma turns_in_order_next (sid : string) (log : list Message) :
  turns_in_order sid log ->
  (1 <= 1 + max_turn_or_zero sid log)%Z
  /\ forall t, In t (map Message_turn_index (Sql.where_session sid log)) ->
               (t <= 1 + max_turn_or_zero sid log)%Z.
Proof.
  intros [_ P]. unfold max_turn_or_zero.
  destruct (Sql.sql_max _) as [m|] eqn:E.
  - split.
    + rewrite Forall_forall in P. specialize (P m (sql_max_In _ _ E)). lia.
    + intros t Ht. pose proof (sql_max_upper _ _ E t Ht). lia.
  - apply sql_max_None in E. rewrite E. split; [lia | contradiction].
Qed.

Lemma where_session_all (sid : string) (l : list Message) :
  Forall (fun m => Message_session_id m = sid) l ->
  forall s, Sql.where_session s l = if String.eqb sid s then l else [].
Proof.
  intros F s. unfold Sql.where_session.
  induction F as [|m l Hm F IH]; simpl; [now destruct (String.eqb sid s) |].
  rewrite Hm, IH. destruct (String.eqb sid s); reflexivity.
Qed.

(** Messages of one session appended at its next turn index keep the
    indices of every session in order. *)
Lemma turns_in_order_append (sid s : string) (log added : list Message) :
  turns_in_order s log ->
  Forall (fun m => Message_session_id m = sid) added ->
  Forall (fun m => Message_turn_index m = (1 + max_turn_or_zero sid log)%Z) added ->
  turns_in_order s (log ++ added).
Proof.
  intros H Fs Ft. unfold turns_in_order.
  rewrite where_session_app, (where_session_all sid added Fs s).
  destruct (String.eqb_spec sid s) as [->|N]; [| now rewrite app_nil_r].
  destruct (turns_in_order_next s log H) as [P U]. destruct H as [S Q].
  rewrite map_app.
  assert (C : Forall (eq (1 + max_turn_or_zero s log)%Z)
                (map Message_turn_index added)).
  { apply Forall_forall. intros t Ht. apply in_map_iff in Ht as (m & <- & Hm).
    rewrite Forall_forall in Ft. symmetry. now apply Ft. }
  split.
  - apply sorted_append; [exact S | exact (sorted_constant _ _ C) |].
    intros x y Hx Hy. rewrite Forall_forall in C. rewrite <- (C y Hy).
    now apply U.
  - apply Forall_app. split; [exact Q |].
    apply Forall_forall. intros t Ht. rewrite Forall_forall in C.
    now rewrite <- (C t Ht).
Qed.

(** X12 - a turn, whether it returns or raises, keeps the turn indices
    of every session positive and in non-decreasing storage order;
    clearing a session keeps this too. *)
Theorem turns_stay_in_order (sid txt s : string) env w :
  turns_in_order s (messages w) ->
  turns_in_order s (messages (snd (ChatService.process_message sid txt env w)))
  /\ turns_in_order s (messages (snd (MemoryManager.clear_memory sid env w))).
Proof.
  intros H. split.
  - destruct (process_message_cases sid txt env w)
      as (added & r & k & E & Sh & _).
    rewrite E. simpl.
    apply (turns_in_order_append sid); [exact H | |];
      destruct Sh as [->|[->|(a & -> & As & _ & At)]];
      repeat constructor; auto.
  - unfold MemoryManager.clear_memory, MemoryManager.db_delete_commit, try_except.
    destruct (db_fails env (ticks w)); [exact H |].
    destruct (db_fails env (S (ticks w))); [exact H |].
    simpl. unfold turns_in_order. rewrite where_session_after_delete.
    destruct (String.eqb s sid); [split; constructor | exact H].
Qed.

Lemma endswith_contains (p s : string) :
  endswith p s = true -> contains p s = true.
Proof.
  intros H. apply endswith_split in H as [a ->]. apply contains_intro_end.
Qed.

(** X13 - on a warranty utterance with exactly one warranty policy
    stored, the reply is the stored content followed by a blank line and
    the warranty summary, except when the content already ends with the bare
    marker: then the reply is the content alone. *)
Theorem warranty_reply_with_stored_policy
    (user_message : string) (memory_context : list CtxEntry) (sid : string)
    (policy : Policy) env w :
  warranty_utterance user_message = true ->
  db_fails env (ticks w) = false ->
  filter (fun p => String.eqb (Policy_type p) "warranty") (policies w) = [policy] ->
  let content := Policy_content_markdown policy in
  ChatChain.invoke user_message memory_context Tools.get_tools sid env w
  = (Ok (ChatChain.mkLlmResponse
           (if endswith "Ringkas:" content then content
            else with_summary content warranty_summary)
           ["get_warranty_policy"] sid),
     bump w).
Proof.
  intros U F H content.
  pose proof (get_warranty_policy_impl_rows [policy] env w F H) as R.
  unfold warranty_utterance in U.
  apply andb_true_iff in U as [U Uw]. apply andb_true_iff in U as [Uo Up].
  apply negb_true_iff in Uo, Up.
  assert (E : ChatChain.ensure_summary
                (ChatChain.add_summary content warranty_summary)
              = if endswith "Ringkas:" content then content
                else with_summary content warranty_summary).
  { unfold ChatChain.add_summary.
    destruct (endswith "Ringkas:" content) eqn:D; simpl.
    - apply ensure_summary_keeps_marked_text, endswith_contains, D.
    - apply (with_summary_is_final content warranty_summary eq_refl). }
  rewrite <- E.
  unfold ChatChain.invoke, try_except, bind.
  rewrite Uo, Up, Uw, find_warranty_tool.
  unfold Tools.create_warranty_policy_tool, Tools.tool_func. rewrite R.
  reflexivity.
Qed.

End LogInvariant.

(* ================================================================== *)
(** * The further theorems at concrete inputs *)
(* ================================================================== *)

Section MoreInstances.
Import Sample.

Lemma lookups_turn_faults_into_apologies_witness :
  Tools.get_order_status_impl "ORD123" env_db_down shop_world
  = (Ok (Tools.order_error_message "ORD123"), bump shop_world).
Proof.
  destruct (proj1 (lookups_turn_faults_into_apologies env_db_down shop_world)
              "ORD123") as (text & H & E).
  rewrite H, (E eq_refl). reflexivity.
Defined.

Lemma intent_priority_first_match_wins_witness :
  exists resp,
    ChatChain.invoke "Status pesanan laptop ORD123?" [] Tools.get_tools "s1"
      env_ok shop_world = (Ok resp, bump shop_world)
    /\ resp = ChatChain.mkLlmResponse
                (with_summary
                   "Pesanan ORD123 sedang dalam pengiriman. via JNE dengan nomor resi JNE789. dengan estimasi tiba 18 September 2025. Terakhir diupdate: 16 September 2025 pukul 14:30."
                   order_summary)
                ["get_order_status"] "s1".
Proof.
  destruct (intent_priority_first_match_wins
              "Status pesanan laptop ORD123?" [] "s1" env_ok shop_world)
    as (resp & H & _ & _ & _ & _ & _ & _ & _ & P).
  exists resp. split; [exact H |].
  destruct (P eq_refl eq_refl) as (_ & (text & Hrun & ->) & _).
  assert (E : Tools.get_order_status_impl "ORD123" env_ok shop_world
              = (Ok "Pesanan ORD123 sedang dalam pengiriman. via JNE dengan nomor resi JNE789. dengan estimasi tiba 18 September 2025. Terakhir diupdate: 16 September 2025 pukul 14:30.",
                 bump shop_world))
    by (vm_compute; reflexivity).
  change (ChatChain._extract_order_id "Status pesanan laptop ORD123?")
    with "ORD123" in Hrun.
  rewrite E in Hrun. injection Hrun as <-. reflexivity.
Defined.

Lemma tool_reply_ends_with_summary_line_witness :
  exists text,
    ChatChain.invoke "Di mana pesanan saya? ID: ORD123" [] Tools.get_tools "s1"
      env_ok shop_world
    = (Ok (ChatChain.mkLlmResponse (with_summary text order_summary)
             ["get_order_status"] "s1"),
       bump shop_world)
    /\ ends_with_summary_line (with_summary text order_summary) = true.
Proof.
  destruct (proj1 (tool_reply_ends_with_summary_line
                     "Di mana pesanan saya? ID: ORD123" [] "s1" env_ok shop_world)
              eq_refl)
    as (text & _ & _ & H & E).
  exists text. split; [exact H | exact E].
Defined.

Lemma unknown_order_reply_witness :
  ChatChain.invoke "Di mana pesanan saya? ID: ORD999" [] Tools.get_tools "s1"
    env_ok shop_world
  = (Ok (ChatChain.mkLlmResponse
           (with_summary (Tools.order_not_found_message "ORD999") order_summary)
           ["get_order_status"] "s1"),
     bump shop_world).
Proof.
  exact (proj1 (unknown_order_reply
                  "Di mana pesanan saya? ID: ORD999" [] "s1" env_ok shop_world
                  eq_refl)
           eq_refl eq_refl).
Defined.

(** The write of the assistant message fails: the turn raises and the
    user message stays in the log. *)
Lemma process_message_outcomes_witness :
  exists added r k,
    ChatService.process_message "s1" "halo" env_assistant_write_down empty_world
    = (r, mkWorld (messages empty_world ++ added) [] [] [] (k + 0))
    /\ added <> [].
Proof.
  destruct (process_message_outcomes "s1" "halo" env_assistant_write_down
              empty_world) as (added & r & k & H & _ & _ & _ & N).
  exists added, r, k. split; [exact H |].
  apply N; reflexivity.
Defined.

Lemma clear_memory_all_or_nothing_witness :
  exists w',
    MemoryManager.clear_memory "s1" env_ok history_world = (Ok tt, w')
    /\ Sql.where_session "s1" (messages w') = [].
Proof.
  destruct (clear_memory_all_or_nothing "s1" env_ok history_world)
    as (r & w' & H & _ & _ & _ & C & _).
  assert (E : MemoryManager.clear_memory "s1" env_ok history_world
              = (Ok tt, snd (MemoryManager.clear_memory "s1" env_ok history_world)))
    by reflexivity.
  rewrite E in H. injection H as <- <-.
  eexists. split; [exact E |].
  exact (proj1 (C eq_refl)).
Defined.


Lemma prompt_carries_utterance_and_excerpt_witness :
  PyStr.contains "Asisten: catatan"
    (Prompts.format_prompt_with_context "halo"
       (MemoryManager.format_memory_for_prompt [mkCtx "system" "catatan"]))
  = true.
Proof.
  exact (proj1 (proj2 (prompt_carries_utterance_and_excerpt
                         "halo" [mkCtx "system" "catatan"]))
           (mkCtx "system" "catatan") (or_introl eq_refl)).
Defined.

Lemma product_lookup_first_substring_match_witness :
  Tools.get_product_info_impl "gaming" env_ok catalogue_world
  = (Ok "Produk: Laptop Gaming X. Fitur: RTX 4060. Harga: Rp 18.500.000. Stok: 5 unit tersedia.",
     bump catalogue_world).
Proof.
  exact (product_lookup_first_substring_match "gaming" env_ok catalogue_world
           eq_refl eq_refl).
Defined.

Lemma product_lookup_percent_matches_anything_witness :
  Tools.get_product_info_impl "%" env_ok catalogue_world
  = (Ok "Produk: Mouse.", bump catalogue_world).
Proof.
  exact (product_lookup_percent_matches_anything "%" _ _ env_ok catalogue_world
           eq_refl eq_refl eq_refl).
Defined.

Lemma extracted_order_id_is_alphanumeric_piece_witness :
  ChatChain._extract_order_id "pesanan id : ord77, terima kasih" = "ord77"
  /\ PyStr.contains (ChatChain._extract_order_id "pesanan id : ord77, terima kasih")
       "pesanan id : ord77, terima kasih" = true
  /\ allc alnum (ChatChain._extract_order_id "pesanan id : ord77, terima kasih")
     = true.
Proof.
  destruct (extracted_order_id_is_alphanumeric_piece
              "pesanan id : ord77, terima kasih" eq_refl) as (C & A & _).
  split; [reflexivity |]. split; [exact C | exact A].
Defined.

Lemma pattern_product_name_is_plain_witness :
  ChatChain._extract_product_name "Apa kelebihan laptop gaming X?" = "gaming X"
  /\ wildcard_free (ChatChain._extract_product_name "Apa kelebihan laptop gaming X?")
     = true.
Proof.
  destruct (pattern_product_name_is_plain
              "Apa kelebihan laptop gaming X?" "gaming X" eq_refl eq_refl)
    as (E & _ & _ & W & _).
  split; [exact E | exact W].
Defined.

Lemma turns_stay_in_order_witness :
  turns_in_order "s1"
    (messages (snd (ChatService.process_message "s1" "halo"
                      env_assistant_write_down history_world))).
Proof.
  apply (turns_stay_in_order "s1" "halo" "s1" env_assistant_write_down
           history_world).
  split; simpl; repeat constructor; lia.
Defined.

Lemma warranty_reply_with_stored_policy_witness :
  ChatChain.invoke "Bagaimana cara klaim garansi?" [] Tools.get_tools "s1"
    env_ok one_policy_world
  = (Ok (ChatChain.mkLlmResponse (with_summary "Garansi A" warranty_summary)
           ["get_warranty_policy"] "s1"),
     bump one_policy_world).
Proof.
  exact (warranty_reply_with_stored_policy
           "Bagaimana cara klaim garansi?" [] "s1" (policy "p1" "Garansi A")
           env_ok one_policy_world eq_refl eq_refl eq_refl).
Defined.

Example extracted_order_id_samples :
  ChatChain._extract_order_id "lupa password" = ""
  /\ ChatChain._extract_order_id "pesanan id : ord77, terima kasih" = "ord77".
Proof. split; vm_compute; reflexivity. Qed.

End MoreInstances.
